(** * GrTextureAdjuster: texture selection, copy cache and sampling domain

    A shallow embedding of [src/gpu/GrTextureAdjuster.cpp].  The adjuster
    decides whether the original texture can be sampled as it is or whether a
    copy has to be made, caches copies under a key built from the content
    identity, and asks the domain solver for the sampling domain of the texture
    it selected.

    The C++ methods mutate the proxy provider of the context and call
    collaborators that live in other files.  They are embedded as computations
    of a small monad: a state (the proxy provider and the copy engine), a log
    of the collaborator calls made, and an outcome that is either a returned
    value or a failed [SkASSERT]. *)

From Stdlib Require Import ZArith NArith QArith List Bool Lia.
Import ListNotations.

Set Implicit Arguments.
Open Scope Z_scope.

(** ** Enumerations *)

Inductive GrMipMapped : Type := kNo | kYes.

(** [GrSamplerState::Filter]. *)
Inductive Filter : Type := kNearest | kBilerp | kMipMap.

Inductive WrapMode : Type := kClamp | kRepeat | kMirrorRepeat.

Inductive GrSurfaceOrigin : Type := kTopLeft_GrSurfaceOrigin | kBottomLeft_GrSurfaceOrigin.

Inductive SkAlphaType : Type :=
  kUnknown_SkAlphaType | kOpaque_SkAlphaType | kPremul_SkAlphaType | kUnpremul_SkAlphaType.

(** The spec's [NoDomain], [Clamped] and [TightCopyRequested]. *)
Inductive DomainMode : Type :=
  kNoDomain_DomainMode | kDomain_DomainMode | kTightCopy_DomainMode.

(** The spec's "strict" ([kYes]) and "approximate" ([kNo]) constraint. *)
Inductive FilterConstraint : Type := kYes_FilterConstraint | kNo_FilterConstraint.

Definition GrMipMapped_eqb (a b : GrMipMapped) : bool :=
  match a, b with
  | kNo, kNo | kYes, kYes => true
  | _, _ => false
  end.

Definition GrSurfaceOrigin_eqb (a b : GrSurfaceOrigin) : bool :=
  match a, b with
  | kTopLeft_GrSurfaceOrigin, kTopLeft_GrSurfaceOrigin
  | kBottomLeft_GrSurfaceOrigin, kBottomLeft_GrSurfaceOrigin => true
  | _, _ => false
  end.

Definition DomainMode_eqb (a b : DomainMode) : bool :=
  match a, b with
  | kNoDomain_DomainMode, kNoDomain_DomainMode
  | kDomain_DomainMode, kDomain_DomainMode
  | kTightCopy_DomainMode, kTightCopy_DomainMode => true
  | _, _ => false
  end.

(** [filterOrNullForBicubic && kMipMap == *filterOrNullForBicubic]. *)
Definition isMipMapFilter (f : option Filter) : bool :=
  match f with
  | Some kMipMap => true
  | _ => false
  end.

(** ** Texture proxies, sampler state, copy parameters *)

(** A [GrTextureProxy] object.  [addr] stands for the address of the object:
    two [sk_sp] are the same pointer when their [addr] agree. *)
Record GrTextureProxy : Type := {
  addr : N;
  width : Z;
  height : Z;
  mipMapped : GrMipMapped;
  origin : GrSurfaceOrigin
}.

(** [a.get() == b] on proxies. *)
Definition samePointer (a b : GrTextureProxy) : bool := N.eqb (addr a) (addr b).

(** [GrSamplerState]: a wrap mode per axis and a filter; default constructed
    it clamps and filters with nearest. *)
Record GrSamplerState : Type := {
  fWrapModeX : WrapMode;
  fWrapModeY : WrapMode;
  fFilter : Filter
}.

Definition defaultSamplerState : GrSamplerState :=
  {| fWrapModeX := kClamp; fWrapModeY := kClamp; fFilter := kNearest |}.

Definition setFilterMode (f : Filter) (s : GrSamplerState) : GrSamplerState :=
  {| fWrapModeX := fWrapModeX s; fWrapModeY := fWrapModeY s; fFilter := f |}.

Definition isClamp (m : WrapMode) : bool :=
  match m with kClamp => true | _ => false end.

Definition isRepeated (s : GrSamplerState) : bool :=
  negb (isClamp (fWrapModeX s)) || negb (isClamp (fWrapModeY s)).

(** Modelled from the spec: the declaration of [CopyParams] is not in src/.
    Section 3: "CopyParams: {target width, target height, mip requirement}". *)
Record CopyParams : Type := {
  fWidth : Z;
  fHeight : Z;
  fMipRequirement : bool
}.

Record SkIRect : Type := {
  irLeft : Z; irTop : Z; irRight : Z; irBottom : Z
}.

Definition SkIRect_MakeWH (w h : Z) : SkIRect :=
  {| irLeft := 0; irTop := 0; irRight := w; irBottom := h |}.

(** [SkRect] over the scalar type of the build. *)
Record SkRect (scalar : Type) : Type := {
  fLeft : scalar; fTop : scalar; fRight : scalar; fBottom : scalar
}.

(** Modelled from the spec: the device capabilities [GrCaps] are declared
    outside src/.  Section 3 speaks of the "device maximum texture size",
    section 4.2 of textures "not natively tileable by the device" and of mip
    levels. *)
Record GrCaps : Type := {
  maxTextureSize : Z;
  npotTextureTileSupport : bool;
  mipMapSupport : bool
}.

(** A live [GrContext]; the proxy provider it gives access to is part of the
    state below. *)
Record GrContext : Type := {
  caps : GrCaps
}.

(** ** Cache keys *)

(** A [GrUniqueKey] is either invalid (as default constructed) or carries the
    words it was built from. *)
Inductive GrUniqueKey : Type :=
| InvalidKey
| Key (data : list Z).

Definition isValid (k : GrUniqueKey) : bool :=
  match k with
  | InvalidKey => false
  | Key _ => true
  end.

Fixpoint words_eqb (a b : list Z) : bool :=
  match a, b with
  | [], [] => true
  | x :: a', y :: b' => Z.eqb x y && words_eqb a' b'
  | _, _ => false
  end.

Definition GrUniqueKey_eqb (a b : GrUniqueKey) : bool :=
  match a, b with
  | InvalidKey, InvalidKey => true
  | Key x, Key y => words_eqb x y
  | _, _ => false
  end.

(** Modelled from the spec: [GrMakeKeyFromImageID] is not in src/.  Section
    4.1: the key is derived deterministically from the content identity and
    the sub-rectangle, and it "fails (produces an invalid/sentinel key) only if
    contentIdentity == 0". *)
Definition GrMakeKeyFromImageID (imageID : N) (imageBounds : SkIRect) : GrUniqueKey :=
  if N.eqb imageID 0 then InvalidKey
  else Key [Z.of_N imageID; irLeft imageBounds; irTop imageBounds;
            irRight imageBounds; irBottom imageBounds].

(** Modelled from the spec: [MakeCopyKeyFromOrigKey] is not in src/.  Section
    3: the key of a copy is derived from the content identity, the source
    rectangle and the copy parameters; an invalid base key gives an invalid
    copy key. *)
Definition MakeCopyKeyFromOrigKey (origKey : GrUniqueKey) (params : CopyParams) : GrUniqueKey :=
  match origKey with
  | InvalidKey => InvalidKey
  | Key d => Key (d ++ [fWidth params; fHeight params;
                        if fMipRequirement params then 1 else 0])
  end.

(** ** The proxy provider (resource cache) *)

(** Modelled from the spec: [GrProxyProvider] is not in src/.  Section 6 lists
    its operations: [findOrCreateByKey], [assignKey], [removeKey] and
    [isRecordingParallel].  The keyed proxies are kept as an association list,
    most recent first, so that two entries under one key can be told from
    one. *)
Record GrProxyProvider : Type := {
  uniquelyKeyedProxies : list (GrUniqueKey * GrTextureProxy);
  recordingDDL : bool;
  contextUniqueID : N
}.

Fixpoint findByKey (k : GrUniqueKey) (c : list (GrUniqueKey * GrTextureProxy))
  : option GrTextureProxy :=
  match c with
  | [] => None
  | (k', p) :: c' => if GrUniqueKey_eqb k k' then Some p else findByKey k c'
  end.

(** Detach [k] from the proxy [p]: the entries that attach [k] to [p] go. *)
Definition removeKey (k : GrUniqueKey) (p : GrTextureProxy)
  (c : list (GrUniqueKey * GrTextureProxy)) : list (GrUniqueKey * GrTextureProxy) :=
  filter (fun e => negb (GrUniqueKey_eqb k (fst e) && samePointer p (snd e))) c.

(** Attach [k] to the proxy [p]. *)
Definition assignKey (k : GrUniqueKey) (p : GrTextureProxy)
  (c : list (GrUniqueKey * GrTextureProxy)) : list (GrUniqueKey * GrTextureProxy) :=
  (k, p) :: c.

(** The number of entries the cache holds under [k]. *)
Definition entriesUnder (k : GrUniqueKey) (c : list (GrUniqueKey * GrTextureProxy)) : nat :=
  length (filter (fun e => GrUniqueKey_eqb k (fst e)) c).

(** What a method call comes to: it returns, or an [SkASSERT] stops it. *)
Inductive Outcome (A : Type) : Type :=
| Returned (a : A)
| AssertionFailed.

Arguments AssertionFailed {A}.

(** ** Collaborators *)

(** What the adjuster uses and src/ does not define: the scalar and matrix
    types, the two copy analysers of [GrGpu], the domain solver and the
    assembly of fragment processors of the base class, and the build flag
    behind [SkASSERT].  The out-parameters of the C++ functions are arguments
    and results here: the function receives the current value and returns the
    value it leaves. *)
Class Collaborators : Type := {
  SK_DEBUG : bool;
  SkScalar : Type;
  SK_Scalar1 : SkScalar;
  SkScalar_le : SkScalar -> SkScalar -> bool;
  SkMatrix : Type;
  postScale : SkScalar -> SkScalar -> SkMatrix -> SkMatrix;
  SkColorSpace : Type;
  GrFragmentProcessor : Type;
  IsACopyNeededForRepeatWrapMode :
    GrCaps -> GrTextureProxy -> Z -> Z -> Filter -> CopyParams -> SkScalar * SkScalar ->
    bool * CopyParams * (SkScalar * SkScalar);
  IsACopyNeededForMips :
    GrCaps -> GrTextureProxy -> Filter -> CopyParams -> bool * CopyParams;
  willBeMippedFor : option GrContext -> GrSamplerState -> bool;
  DetermineDomainMode :
    SkRect SkScalar -> FilterConstraint -> bool -> GrTextureProxy -> option Filter ->
    SkRect SkScalar -> DomainMode * SkRect SkScalar;
  CreateFragmentProcessorForDomainAndFilter :
    GrTextureProxy -> SkMatrix -> DomainMode -> SkRect SkScalar -> option Filter ->
    option GrFragmentProcessor;
  GrColorSpaceXformEffect_Make :
    option GrFragmentProcessor -> option SkColorSpace -> SkAlphaType -> option SkColorSpace ->
    option GrFragmentProcessor
}.

Section Adjuster.

Context {C : Collaborators}.

(** ** The state, the log and the monad *)

(** The calls to collaborators, in the order they are made. *)
Inductive Event : Type :=
| EvIsACopyNeededForRepeatWrapMode (p : GrTextureProxy) (f : Filter)
| EvIsACopyNeededForMips (p : GrTextureProxy) (f : Filter)
| EvFindOrCreateProxyByUniqueKey (k : GrUniqueKey) (o : GrSurfaceOrigin)
| EvCopyOnGpu (src : GrTextureProxy) (params : CopyParams) (willBeMipped : bool)
| EvRemoveUniqueKeyFromProxy (k : GrUniqueKey) (p : GrTextureProxy)
| EvAssignUniqueKeyToProxy (k : GrUniqueKey) (p : GrTextureProxy)
| EvDetermineDomainMode (constraintRect : SkRect SkScalar) (fc : FilterConstraint)
    (coordsLimited : bool) (p : GrTextureProxy) (filter : option Filter)
| EvCreateFragmentProcessorForDomainAndFilter (p : GrTextureProxy) (m : SkMatrix)
    (mode : DomainMode) (domain : SkRect SkScalar) (filter : option Filter)
| EvGrColorSpaceXformEffect_Make.

(** Modelled from the spec: the copy engine [CopyOnGpu] is not in src/.
    Section 6: "copyOnGpu(sourceHandle, copyParams, wantMips) -> Handle|null;
    may fail for out-of-memory or device-capability reasons".  What the engine
    answers is not decided by the adjuster: [gpuScript] lists the answers of
    the calls to come, and an exhausted script answers null. *)
Record World : Type := {
  provider : GrProxyProvider;
  gpuScript : list (option GrTextureProxy)
}.

Definition M (A : Type) : Type := World -> Outcome A * World * list Event.

Definition ret {A : Type} (a : A) : M A := fun w => (Returned a, w, []).

Definition bind {A B : Type} (m : M A) (k : A -> M B) : M B :=
  fun w =>
    match m w with
    | (Returned a, w1, e1) =>
        match k a w1 with
        | (o, w2, e2) => (o, w2, e1 ++ e2)
        end
    | (AssertionFailed, w1, e1) => (AssertionFailed, w1, e1)
    end.

Definition emit (e : Event) : M unit := fun w => (Returned tt, w, [e]).

(** [SkASSERT(cond)]: fatal when the build checks assertions, nothing
    otherwise. *)
Definition SkASSERT (cond : bool) : M unit :=
  fun w => if SK_DEBUG && negb cond then (AssertionFailed, w, []) else (Returned tt, w, []).

Declare Scope adjuster_scope.
Delimit Scope adjuster_scope with adj.

Notation "x <- m ;; k" := (bind m (fun x => k))
  (at level 100, m at next level, right associativity) : adjuster_scope.
Notation "' pat <- m ;; k" := (bind m (fun x => match x with pat => k end))
  (at level 100, pat pattern, m at next level, right associativity) : adjuster_scope.
Notation "m ;;; k" := (bind m (fun _ => k))
  (at level 100, right associativity) : adjuster_scope.

Local Open Scope adjuster_scope.

Definition outcome {A : Type} (r : Outcome A * World * list Event) : Outcome A := fst (fst r).
Definition world {A : Type} (r : Outcome A * World * list Event) : World := snd (fst r).
Definition events {A : Type} (r : Outcome A * World * list Event) : list Event := snd r.

(** ** The calls into the proxy provider and the copy engine *)

Definition setKeyed (c : list (GrUniqueKey * GrTextureProxy)) (w : World) : World :=
  {| provider := {| uniquelyKeyedProxies := c;
                    recordingDDL := recordingDDL (provider w);
                    contextUniqueID := contextUniqueID (provider w) |};
     gpuScript := gpuScript w |}.

Definition keyed (w : World) : list (GrUniqueKey * GrTextureProxy) :=
  uniquelyKeyedProxies (provider w).

Definition findOrCreateProxyByUniqueKey (k : GrUniqueKey) (o : GrSurfaceOrigin)
  : M (option GrTextureProxy) :=
  fun w => (Returned (findByKey k (keyed w)), w, [EvFindOrCreateProxyByUniqueKey k o]).

Definition removeUniqueKeyFromProxy (k : GrUniqueKey) (p : GrTextureProxy) : M unit :=
  fun w => (Returned tt, setKeyed (removeKey k p (keyed w)) w,
            [EvRemoveUniqueKeyFromProxy k p]).

Definition assignUniqueKeyToProxy (k : GrUniqueKey) (p : GrTextureProxy) : M unit :=
  fun w => (Returned tt, setKeyed (assignKey k p (keyed w)) w,
            [EvAssignUniqueKeyToProxy k p]).

Definition isRecordingDDL : M bool :=
  fun w => (Returned (recordingDDL (provider w)), w, []).

Definition getContextUniqueID : M N :=
  fun w => (Returned (contextUniqueID (provider w)), w, []).

Definition CopyOnGpu (src : GrTextureProxy) (params : CopyParams) (willBeMipped : bool)
  : M (option GrTextureProxy) :=
  fun w =>
    match gpuScript w with
    | [] => (Returned None, w, [EvCopyOnGpu src params willBeMipped])
    | answer :: rest =>
        (Returned answer, {| provider := provider w; gpuScript := rest |},
         [EvCopyOnGpu src params willBeMipped])
    end.

(** ** The adjuster *)

(** The members of [GrTextureAdjuster].  A null [fContext] is an abandoned
    context.  The base class is constructed with the width and height of
    [original], so [this->width()] and [this->height()] are those of
    [fOriginal]. *)
Record GrTextureAdjuster : Type := {
  fContext : option GrContext;
  fOriginal : GrTextureProxy;
  fAlphaType : SkAlphaType;
  fColorSpace : option SkColorSpace;
  fUniqueID : N
}.

Definition originalProxy (a : GrTextureAdjuster) : GrTextureProxy := fOriginal a.
Definition originalProxyRef (a : GrTextureAdjuster) : GrTextureProxy := fOriginal a.

Definition makeCopyKey (a : GrTextureAdjuster) (params : CopyParams) : GrUniqueKey :=
  let baseKey :=
    GrMakeKeyFromImageID (fUniqueID a)
      (SkIRect_MakeWH (width (fOriginal a)) (height (fOriginal a))) in
  MakeCopyKeyFromOrigKey baseKey params.

(** "We don't currently have a mechanism for notifications on Images!" *)
Definition didCacheCopy (copyKey : GrUniqueKey) (contextUniqueID : N) : M unit := ret tt.

(** The test of line 48 on a cached copy that was found. *)
Definition satisfies (willBeMipped : bool) (p : GrTextureProxy) : bool :=
  negb willBeMipped || GrMipMapped_eqb kYes (mipMapped p).

(** Lines 53 to 75 of [refTextureProxyCopy]: what follows the lookup. *)
Definition copyAndRegister (a : GrTextureAdjuster) (key : GrUniqueKey)
  (cachedCopy : option GrTextureProxy) (copyParams : CopyParams) (willBeMipped : bool)
  : M (option GrTextureProxy) :=
  let proxy := originalProxyRef a in
  copy <- CopyOnGpu proxy copyParams willBeMipped ;;
  match copy with
  | Some c =>
      if isValid key then
        SkASSERT (GrSurfaceOrigin_eqb (origin c) (origin (originalProxy a))) ;;;
        match cachedCopy with
        | Some cc =>
            SkASSERT (GrMipMapped_eqb kYes (mipMapped c) &&
                      GrMipMapped_eqb kNo (mipMapped cc)) ;;;
            removeUniqueKeyFromProxy key cc
        | None => ret tt
        end ;;;
        assignUniqueKeyToProxy key c ;;;
        ddl <- isRecordingDDL ;;
        (if negb ddl
         then id <- getContextUniqueID ;; didCacheCopy key id
         else ret tt) ;;;
        ret copy
      else ret copy
  | None => ret copy
  end.

(** [GrTextureAdjuster::refTextureProxyCopy], the spec's [resolve].  The
    method dereferences [fContext] for its proxy provider, which is the
    provider of the state. *)
Definition refTextureProxyCopy (a : GrTextureAdjuster) (copyParams : CopyParams)
  (willBeMipped : bool) : M (option GrTextureProxy) :=
  let key := makeCopyKey a copyParams in
  if isValid key then
    cachedCopy <- findOrCreateProxyByUniqueKey key (origin (originalProxy a)) ;;
    match cachedCopy with
    | Some cc =>
        if satisfies willBeMipped cc then ret cachedCopy
        else copyAndRegister a key cachedCopy copyParams willBeMipped
    | None => copyAndRegister a key cachedCopy copyParams willBeMipped
    end
  else copyAndRegister a key None copyParams willBeMipped.

(** The two analysers of [GrGpu], logged. *)
Definition callIsACopyNeededForRepeatWrapMode (cps : GrCaps) (p : GrTextureProxy)
  (w h : Z) (f : Filter) (copyParams : CopyParams) (scaleAdjust : SkScalar * SkScalar)
  : M (bool * CopyParams * (SkScalar * SkScalar)) :=
  emit (EvIsACopyNeededForRepeatWrapMode p f) ;;;
  ret (IsACopyNeededForRepeatWrapMode cps p w h f copyParams scaleAdjust).

Definition callIsACopyNeededForMips (cps : GrCaps) (p : GrTextureProxy) (f : Filter)
  (copyParams : CopyParams) : M (bool * CopyParams) :=
  emit (EvIsACopyNeededForMips p f) ;;;
  ret (IsACopyNeededForMips cps p f copyParams).

(** What [onRefTextureProxyForParams] leaves: the proxy it returns and its two
    out-parameters ([texColorSpace] is [None] when the caller passed null). *)
Record Selection : Type := {
  selected : option GrTextureProxy;
  outScaleAdjust : SkScalar * SkScalar;
  outTexColorSpace : option (option SkColorSpace)
}.

(** Lines 111 to 118: the copy and the fallback. *)
Definition copyOrFallBack (a : GrTextureAdjuster) (copyParams : CopyParams)
  (willBeMipped needsCopyForMipsOnly : bool) : M (option GrTextureProxy) :=
  result <- refTextureProxyCopy a copyParams willBeMipped ;;
  match result with
  | None => if needsCopyForMipsOnly then ret (Some (originalProxyRef a)) else ret result
  | Some _ => ret result
  end.

(** [GrTextureAdjuster::onRefTextureProxyForParams], the spec's [select].
    [copyParams] is the value the uninitialised local of line 85 happens to
    hold. *)
Definition onRefTextureProxyForParams (a : GrTextureAdjuster) (params : GrSamplerState)
  (dstColorSpace : option SkColorSpace) (texColorSpace : option (option SkColorSpace))
  (willBeMipped : bool) (scaleAdjust : SkScalar * SkScalar) (copyParams : CopyParams)
  : M Selection :=
  let proxy := originalProxyRef a in
  match fContext a with
  | None =>
      ret {| selected := None; outScaleAdjust := scaleAdjust;
             outTexColorSpace := texColorSpace |}
  | Some ctx =>
      let texColorSpace :=
        match texColorSpace with
        | Some _ => Some (fColorSpace a)
        | None => None
        end in
      SkASSERT ((width (fOriginal a) <=? maxTextureSize (caps ctx)) &&
                (height (fOriginal a) <=? maxTextureSize (caps ctx))) ;;;
      ' (needsCopyForRepeat, copyParams, scaleAdjust) <-
          (if isRepeated params
           then callIsACopyNeededForRepeatWrapMode (caps ctx) proxy (width proxy)
                  (height proxy) (fFilter params) copyParams scaleAdjust
           else ret (false, copyParams, scaleAdjust)) ;;
      if negb needsCopyForRepeat then
        ' (needsCopyForMipsOnly, copyParams) <-
            callIsACopyNeededForMips (caps ctx) proxy (fFilter params) copyParams ;;
        if negb needsCopyForMipsOnly then
          ret {| selected := Some proxy; outScaleAdjust := scaleAdjust;
                 outTexColorSpace := texColorSpace |}
        else
          result <- copyOrFallBack a copyParams willBeMipped needsCopyForMipsOnly ;;
          ret {| selected := result; outScaleAdjust := scaleAdjust;
                 outTexColorSpace := texColorSpace |}
      else
        result <- copyOrFallBack a copyParams willBeMipped false ;;
        ret {| selected := result; outScaleAdjust := scaleAdjust;
               outTexColorSpace := texColorSpace |}
  end.

(** Modelled from the spec: [refTextureProxyForParams] is a method of the base
    class and is not in src/.  Section 4.4 gives [select] the flag [wantMips]
    as an input: the wrapper chooses it from the context and the sampler state
    ([willBeMippedFor]) and forwards to [onRefTextureProxyForParams]. *)
Definition refTextureProxyForParams (a : GrTextureAdjuster) (sampler : GrSamplerState)
  (dstColorSpace : option SkColorSpace) (proxyColorSpace : option (option SkColorSpace))
  (scaleAdjust : SkScalar * SkScalar) (copyParams : CopyParams) : M Selection :=
  onRefTextureProxyForParams a sampler dstColorSpace proxyColorSpace
    (willBeMippedFor (fContext a) sampler) scaleAdjust copyParams.

(** The domain solver and the two steps of the assembly, logged. *)
Definition callDetermineDomainMode (constraintRect : SkRect SkScalar)
  (filterConstraint : FilterConstraint) (coordsLimitedToConstraintRect : bool)
  (p : GrTextureProxy) (filter : option Filter) (domain : SkRect SkScalar)
  : M (DomainMode * SkRect SkScalar) :=
  emit (EvDetermineDomainMode constraintRect filterConstraint
          coordsLimitedToConstraintRect p filter) ;;;
  ret (DetermineDomainMode constraintRect filterConstraint coordsLimitedToConstraintRect
         p filter domain).

Definition callCreateFragmentProcessorForDomainAndFilter (p : GrTextureProxy)
  (m : SkMatrix) (mode : DomainMode) (domain : SkRect SkScalar) (filter : option Filter)
  : M (option GrFragmentProcessor) :=
  emit (EvCreateFragmentProcessorForDomainAndFilter p m mode domain filter) ;;;
  ret (CreateFragmentProcessorForDomainAndFilter p m mode domain filter).

Definition callGrColorSpaceXformEffect_Make (fp : option GrFragmentProcessor)
  (src : option SkColorSpace) (at_ : SkAlphaType) (dst : option SkColorSpace)
  : M (option GrFragmentProcessor) :=
  emit EvGrColorSpaceXformEffect_Make ;;;
  ret (GrColorSpaceXformEffect_Make fp src at_ dst).

(** [SkASSERT] of lines 164 and 165. *)
Definition domainIsSorted (d : SkRect SkScalar) : bool :=
  SkScalar_le (fLeft d) (fRight d) && SkScalar_le (fTop d) (fBottom d).

(** Lines 150 to 163: the retry with bilerp after a tight copy was asked
    for. *)
Definition retryTightCopy (constraintRect : SkRect SkScalar)
  (filterConstraint : FilterConstraint) (coordsLimitedToConstraintRect : bool)
  (p : GrTextureProxy) (filterOrNullForBicubic : option Filter)
  (first : DomainMode * SkRect SkScalar) : M (DomainMode * SkRect SkScalar) :=
  if DomainMode_eqb kTightCopy_DomainMode (fst first) then
    SkASSERT (isMipMapFilter filterOrNullForBicubic) ;;;
    second <- callDetermineDomainMode constraintRect filterConstraint
                coordsLimitedToConstraintRect p (Some kBilerp) (snd first) ;;
    SkASSERT (negb (DomainMode_eqb kTightCopy_DomainMode (fst second))) ;;;
    ret second
  else ret first.

(** Lines 131 to 134: the sampler state of the request. *)
Definition samplerStateFor (filterOrNullForBicubic : option Filter) : GrSamplerState :=
  match filterOrNullForBicubic with
  | Some f => setFilterMode f defaultSamplerState
  | None => defaultSamplerState
  end.

(** Lines 141 to 168 of [createFragmentProcessor]: what follows the
    selection of a proxy.  [domain] is the value the uninitialised local of
    line 130 happens to hold. *)
Definition sampleAndAssemble (a : GrTextureAdjuster) (origTextureMatrix : SkMatrix)
  (constraintRect : SkRect SkScalar) (filterConstraint : FilterConstraint)
  (coordsLimitedToConstraintRect : bool) (filterOrNullForBicubic : option Filter)
  (dstColorSpace : option SkColorSpace) (domain : SkRect SkScalar)
  (proxy : GrTextureProxy) (scaleAdjust : SkScalar * SkScalar)
  : M (option GrFragmentProcessor) :=
  let textureMatrix :=
    if negb (samePointer proxy (originalProxy a))
    then postScale (fst scaleAdjust) (snd scaleAdjust) origTextureMatrix
    else origTextureMatrix in
  first <- callDetermineDomainMode constraintRect filterConstraint
             coordsLimitedToConstraintRect proxy filterOrNullForBicubic domain ;;
  ' (domainMode, domain) <-
      retryTightCopy constraintRect filterConstraint coordsLimitedToConstraintRect
        proxy filterOrNullForBicubic first ;;
  SkASSERT (DomainMode_eqb kNoDomain_DomainMode domainMode || domainIsSorted domain) ;;;
  fp <- callCreateFragmentProcessorForDomainAndFilter proxy textureMatrix domainMode
          domain filterOrNullForBicubic ;;
  callGrColorSpaceXformEffect_Make fp (fColorSpace a) (fAlphaType a) dstColorSpace.

(** [GrTextureAdjuster::createFragmentProcessor].  [domain] and [copyParams]
    are the values the uninitialised locals of lines 130 and 85 happen to
    hold. *)
Definition createFragmentProcessor (a : GrTextureAdjuster) (origTextureMatrix : SkMatrix)
  (constraintRect : SkRect SkScalar) (filterConstraint : FilterConstraint)
  (coordsLimitedToConstraintRect : bool) (filterOrNullForBicubic : option Filter)
  (dstColorSpace : option SkColorSpace)
  (domain : SkRect SkScalar) (copyParams : CopyParams) : M (option GrFragmentProcessor) :=
  let samplerState := samplerStateFor filterOrNullForBicubic in
  let scaleAdjust := (SK_Scalar1, SK_Scalar1) in
  sel <- refTextureProxyForParams a samplerState None None scaleAdjust copyParams ;;
  match selected sel with
  | None => ret None
  | Some proxy =>
      sampleAndAssemble a origTextureMatrix constraintRect filterConstraint
        coordsLimitedToConstraintRect filterOrNullForBicubic dstColorSpace domain
        proxy (outScaleAdjust sel)
  end.

(** ** Reading the log *)

Definition isCopyOnGpu (e : Event) : bool :=
  match e with EvCopyOnGpu _ _ _ => true | _ => false end.

Definition isCacheLookup (e : Event) : bool :=
  match e with EvFindOrCreateProxyByUniqueKey _ _ => true | _ => false end.

Definition isRegistration (e : Event) : bool :=
  match e with
  | EvAssignUniqueKeyToProxy _ _ | EvRemoveUniqueKeyFromProxy _ _ => true
  | _ => false
  end.

Definition isDetermineDomainMode (e : Event) : bool :=
  match e with EvDetermineDomainMode _ _ _ _ _ => true | _ => false end.

Definition isAssembly (e : Event) : bool :=
  match e with
  | EvCreateFragmentProcessorForDomainAndFilter _ _ _ _ _ => true
  | EvGrColorSpaceXformEffect_Make => true
  | _ => false
  end.

(** The number of GPU copies a run asked for. *)
Definition gpuCopies (l : list Event) : nat := length (filter isCopyOnGpu l).

(** The filters the domain solver was called with, in order. *)
Definition solverFilters (l : list Event) : list (option Filter) :=
  flat_map (fun e => match e with
                     | EvDetermineDomainMode _ _ _ _ f => [f]
                     | _ => []
                     end) l.

(** The texture matrices handed to the assembly, in order. *)
Definition assembledMatrices (l : list Event) : list SkMatrix :=
  flat_map (fun e => match e with
                     | EvCreateFragmentProcessorForDomainAndFilter _ m _ _ _ => [m]
                     | _ => []
                     end) l.

(** The calls the selection of the texture can make. *)
Definition isSelectionEvent (e : Event) : bool :=
  match e with
  | EvIsACopyNeededForRepeatWrapMode _ _ | EvIsACopyNeededForMips _ _
  | EvFindOrCreateProxyByUniqueKey _ _ | EvCopyOnGpu _ _ _
  | EvRemoveUniqueKeyFromProxy _ _ | EvAssignUniqueKeyToProxy _ _ => true
  | _ => false
  end.

(** Every call a computation logs satisfies [P]. *)
Definition emitsOnly {A : Type} (P : Event -> bool) (m : M A) : Prop :=
  forall w : World, forallb P (events (m w)) = true.

(** The mode and domain pairs handed to the assembly, in order. *)
Definition assembledDomains (l : list Event) : list (DomainMode * SkRect SkScalar) :=
  flat_map (fun e => match e with
                     | EvCreateFragmentProcessorForDomainAndFilter _ _ mode d _ => [(mode, d)]
                     | _ => []
                     end) l.

Definition isReturned {A : Type} (o : Outcome A) : bool :=
  match o with
  | Returned _ => true
  | AssertionFailed => false
  end.

(** The domain modes handed to the assembly, in order. *)
Definition assembledModes (l : list Event) : list DomainMode :=
  flat_map (fun e => match e with
                     | EvCreateFragmentProcessorForDomainAndFilter _ _ mode _ _ => [mode]
                     | _ => []
                     end) l.

End Adjuster.

(** ** The analysis of lines 98 to 109, as the spec's analyser reports it *)

Section Analysis.

Context {C : Collaborators}.

(** The answer of the wrap-mode analyser; it is only asked when the sampler
    repeats. *)
Definition repeatAnalysis (cps : GrCaps) (a : GrTextureAdjuster) (params : GrSamplerState)
  (copyParams : CopyParams) (scaleAdjust : SkScalar * SkScalar)
  : bool * CopyParams * (SkScalar * SkScalar) :=
  if isRepeated params
  then IsACopyNeededForRepeatWrapMode cps (fOriginal a) (width (fOriginal a))
         (height (fOriginal a)) (fFilter params) copyParams scaleAdjust
  else (false, copyParams, scaleAdjust).

(** A copy is required for the wrap mode. *)
Definition copyForWrapMode (cps : GrCaps) (a : GrTextureAdjuster) (params : GrSamplerState)
  (copyParams : CopyParams) (scaleAdjust : SkScalar * SkScalar) : bool :=
  fst (fst (repeatAnalysis cps a params copyParams scaleAdjust)).

(** The answer of the mip analyser, asked when the wrap mode needs no copy. *)
Definition mipAnalysis (cps : GrCaps) (a : GrTextureAdjuster) (params : GrSamplerState)
  (copyParams : CopyParams) (scaleAdjust : SkScalar * SkScalar) : bool * CopyParams :=
  IsACopyNeededForMips cps (fOriginal a) (fFilter params)
    (snd (fst (repeatAnalysis cps a params copyParams scaleAdjust))).

(** A copy is required, and only for the mips. *)
Definition copyForMipsOnly (cps : GrCaps) (a : GrTextureAdjuster) (params : GrSamplerState)
  (copyParams : CopyParams) (scaleAdjust : SkScalar * SkScalar) : bool :=
  negb (copyForWrapMode cps a params copyParams scaleAdjust) &&
  fst (mipAnalysis cps a params copyParams scaleAdjust).

Definition copyNeeded (cps : GrCaps) (a : GrTextureAdjuster) (params : GrSamplerState)
  (copyParams : CopyParams) (scaleAdjust : SkScalar * SkScalar) : bool :=
  copyForWrapMode cps a params copyParams scaleAdjust ||
  copyForMipsOnly cps a params copyParams scaleAdjust.

(** The parameters of the copy the analysis asks for. *)
Definition analysedCopyParams (cps : GrCaps) (a : GrTextureAdjuster)
  (params : GrSamplerState) (copyParams : CopyParams) (scaleAdjust : SkScalar * SkScalar)
  : CopyParams :=
  if copyForWrapMode cps a params copyParams scaleAdjust
  then snd (fst (repeatAnalysis cps a params copyParams scaleAdjust))
  else snd (mipAnalysis cps a params copyParams scaleAdjust).

Definition analysedScaleAdjust (cps : GrCaps) (a : GrTextureAdjuster)
  (params : GrSamplerState) (copyParams : CopyParams) (scaleAdjust : SkScalar * SkScalar)
  : SkScalar * SkScalar :=
  snd (repeatAnalysis cps a params copyParams scaleAdjust).

(** The calls the analysis logs. *)
Definition analysisEvents (cps : GrCaps) (a : GrTextureAdjuster) (params : GrSamplerState)
  (copyParams : CopyParams) (scaleAdjust : SkScalar * SkScalar) : list Event :=
  (if isRepeated params
   then [EvIsACopyNeededForRepeatWrapMode (fOriginal a) (fFilter params)] else []) ++
  (if copyForWrapMode cps a params copyParams scaleAdjust
   then [] else [EvIsACopyNeededForMips (fOriginal a) (fFilter params)]).

(** The condition of the [SkASSERT] of lines 95 and 96. *)
Definition fitsMaxTextureSize (a : GrTextureAdjuster) (ctx : GrContext) : bool :=
  (width (fOriginal a) <=? maxTextureSize (caps ctx)) &&
  (height (fOriginal a) <=? maxTextureSize (caps ctx)).

(** An assertion on [cond] lets the run go on: the build does not check
    assertions, or [cond] holds. *)
Definition passes (cond : bool) : Prop := SK_DEBUG = true -> cond = true.

Definition texColorSpaceOut (a : GrTextureAdjuster)
  (texColorSpace : option (option SkColorSpace)) : option (option SkColorSpace) :=
  match texColorSpace with
  | Some _ => Some (fColorSpace a)
  | None => None
  end.

End Analysis.

(** ** A sample device *)

Definition isPow2 (n : Z) : bool := (0 <? n) && (n =? 2 ^ Z.log2 n).

Definition GrNextPow2 (n : Z) : Z := 2 ^ Z.log2_up n.

(** Modelled from the spec: the wrap-mode analyser of [GrGpu] is not in src/.
    Section 4.2, step 1, and the scenario of section 8: a repeating sampler on
    a device that tiles only powers of two needs a copy of the next
    power-of-two size, and [scaleAdjust] is the ratio of the original to the
    copy. *)
Definition sampleIsACopyNeededForRepeatWrapMode (cps : GrCaps) (p : GrTextureProxy)
  (w h : Z) (f : Filter) (copyParams : CopyParams) (scaleAdjust : Q * Q)
  : bool * CopyParams * (Q * Q) :=
  if negb (npotTextureTileSupport cps) && negb (isPow2 w && isPow2 h)
  then (true,
        {| fWidth := GrNextPow2 w; fHeight := GrNextPow2 h; fMipRequirement := false |},
        (Qmake w (Z.to_pos (GrNextPow2 w)), Qmake h (Z.to_pos (GrNextPow2 h))))
  else (false, copyParams, scaleAdjust).

(** Modelled from the spec: the mip analyser of [GrGpu] is not in src/.
    Section 4.2, step 2: "if mip-mapping is requested and the original lacks
    mip levels, a copy is required with mipRequested = true and target
    dimensions equal to the original's". *)
Definition sampleIsACopyNeededForMips (cps : GrCaps) (p : GrTextureProxy) (f : Filter)
  (copyParams : CopyParams) : bool * CopyParams :=
  match f, mipMapped p with
  | kMipMap, kNo =>
      if mipMapSupport cps
      then (true, {| fWidth := width p; fHeight := height p; fMipRequirement := true |})
      else (false, copyParams)
  | _, _ => (false, copyParams)
  end.

Definition sampleWillBeMippedFor (ctx : option GrContext) (s : GrSamplerState) : bool :=
  match ctx, fFilter s with
  | Some c, kMipMap => mipMapSupport (caps c)
  | _, _ => false
  end.

Definition insetRect (d : Q) (r : SkRect Q) : SkRect Q :=
  {| fLeft := fLeft r + d; fTop := fTop r + d;
     fRight := fRight r - d; fBottom := fBottom r - d |}%Q.

Definition touchesEdge (r : SkRect Q) (p : GrTextureProxy) : bool :=
  Qle_bool (fLeft r) 0 || Qle_bool (fTop r) 0 ||
  Qle_bool (inject_Z (width p)) (fRight r) || Qle_bool (inject_Z (height p)) (fBottom r).

(** Modelled from the spec: the domain solver [DetermineDomainMode] is not in
    src/.  A solver in the manner of section 4.5, to run the adjuster on
    concrete requests: nearest filtering needs no domain; a strict constraint
    is inset by half a texel under bilerp; a strict constraint under a mip-map
    filter, or under bicubic (a null filter) when it touches the edge of the
    texture, asks for a tight copy. *)
Definition sampleDetermineDomainMode (constraintRect : SkRect Q) (fc : FilterConstraint)
  (coordsLimited : bool) (p : GrTextureProxy) (filter : option Filter) (domain : SkRect Q)
  : DomainMode * SkRect Q :=
  match fc, filter with
  | _, Some kNearest => (kNoDomain_DomainMode, domain)
  | kNo_FilterConstraint, _ => (kNoDomain_DomainMode, domain)
  | kYes_FilterConstraint, Some kBilerp =>
      (kDomain_DomainMode, insetRect (1 # 2) constraintRect)
  | kYes_FilterConstraint, Some kMipMap => (kTightCopy_DomainMode, domain)
  | kYes_FilterConstraint, None =>
      if touchesEdge constraintRect p then (kTightCopy_DomainMode, domain)
      else (kDomain_DomainMode, insetRect (3 # 2) constraintRect)
  end.

(** What the sample assembly builds: a record of what it was given. *)
Record SampleProcessor : Type := {
  spProxy : GrTextureProxy;
  spMatrix : Q * Q;
  spMode : DomainMode;
  spDomain : SkRect Q;
  spFilter : option Filter
}.

(** The sample device: scalars are rationals, a matrix is a pair of scale
    factors, colour spaces are numbered. *)
Definition sampleDevice (debug : bool) : Collaborators := {|
  SK_DEBUG := debug;
  SkScalar := Q;
  SK_Scalar1 := 1%Q;
  SkScalar_le := Qle_bool;
  SkMatrix := Q * Q;
  postScale := fun sx sy m => (Qmult sx (fst m), Qmult sy (snd m));
  SkColorSpace := N;
  GrFragmentProcessor := SampleProcessor;
  IsACopyNeededForRepeatWrapMode := sampleIsACopyNeededForRepeatWrapMode;
  IsACopyNeededForMips := sampleIsACopyNeededForMips;
  willBeMippedFor := sampleWillBeMippedFor;
  DetermineDomainMode := sampleDetermineDomainMode;
  CreateFragmentProcessorForDomainAndFilter := fun p m mode d f =>
    Some {| spProxy := p; spMatrix := m; spMode := mode; spDomain := d; spFilter := f |};
  GrColorSpaceXformEffect_Make := fun fp _ _ _ => fp
|}.

Definition sampleCaps : GrCaps :=
  {| maxTextureSize := 4096; npotTextureTileSupport := false; mipMapSupport := true |}.

Definition sampleContext : GrContext := {| caps := sampleCaps |}.

(** A 100x100 texture without mip levels. *)
Definition sampleOriginal : GrTextureProxy :=
  {| addr := 1; width := 100; height := 100; mipMapped := kNo;
     origin := kTopLeft_GrSurfaceOrigin |}.

(** Two copies the engine may answer with: plain and mipped. *)
Definition samplePlainCopy : GrTextureProxy :=
  {| addr := 2; width := 100; height := 100; mipMapped := kNo;
     origin := kTopLeft_GrSurfaceOrigin |}.

Definition sampleMippedCopy : GrTextureProxy :=
  {| addr := 3; width := 100; height := 100; mipMapped := kYes;
     origin := kTopLeft_GrSurfaceOrigin |}.

Definition sampleAdjuster (debug : bool) (ctx : option GrContext) (id : N)
  : @GrTextureAdjuster (sampleDevice debug) :=
  {| fContext := ctx; fOriginal := sampleOriginal; fAlphaType := kPremul_SkAlphaType;
     fColorSpace := None; fUniqueID := id |}.

(** The adjuster of the sample texture on a live context, in a build that
    checks assertions; its content identity is 42. *)
Definition debugAdjuster : @GrTextureAdjuster (sampleDevice true) :=
  sampleAdjuster true (Some sampleContext) 42.

(** The scale factors [{ 1.0f, 1.0f }] of line 135. *)
Definition noScale : Q * Q := (1%Q, 1%Q).

Definition sampleSelection (debug : bool) (p : option GrTextureProxy) (sa : Q * Q)
  : @Selection (sampleDevice debug) :=
  @Build_Selection (sampleDevice debug) p sa None.

Definition sampleProvider (c : list (GrUniqueKey * GrTextureProxy)) : GrProxyProvider :=
  {| uniquelyKeyedProxies := c; recordingDDL := false; contextUniqueID := 7 |}.

Definition sampleWorld (c : list (GrUniqueKey * GrTextureProxy))
  (script : list (option GrTextureProxy)) : World :=
  {| provider := sampleProvider c; gpuScript := script |}.

Definition sampleCopyParams : CopyParams :=
  {| fWidth := 100; fHeight := 100; fMipRequirement := true |}.

Definition mipSampler : GrSamplerState := setFilterMode kMipMap defaultSamplerState.

Definition repeatSampler : GrSamplerState :=
  {| fWrapModeX := kRepeat; fWrapModeY := kRepeat; fFilter := kBilerp |}.

Definition sampleKey (debug : bool) : GrUniqueKey :=
  makeCopyKey (sampleAdjuster debug (Some sampleContext) 42) sampleCopyParams.

(** A value for the uninitialised [domain] of line 130. *)
Definition garbageRect : SkRect Q :=
  {| fLeft := 0; fTop := 0; fRight := 0; fBottom := 0 |}%Q.

(** A constraint rectangle that touches the left and top edge of the
    texture, and one inside it. *)
Definition edgeRect : SkRect Q :=
  {| fLeft := 0; fTop := 0; fRight := 50; fBottom := 50 |}%Q.

Definition innerRect : SkRect Q :=
  {| fLeft := 10; fTop := 10; fRight := 50; fBottom := 50 |}%Q.

(** The selection of a mip-map request on the sample device when the engine
    answers with a mipped copy. *)
Definition mipRequestWorld : World := sampleWorld [] [Some sampleMippedCopy].

Definition mipRequestSelected : World :=
  sampleWorld [(sampleKey true, sampleMippedCopy)] [].

Definition mipRequestEvents : list (@Event (sampleDevice true)) :=
  [EvIsACopyNeededForMips sampleOriginal kMipMap;
   EvFindOrCreateProxyByUniqueKey (sampleKey true) kTopLeft_GrSurfaceOrigin;
   EvCopyOnGpu sampleOriginal sampleCopyParams true;
   EvAssignUniqueKeyToProxy (sampleKey true) sampleMippedCopy].

(** ** The properties of section 8 of the spec, as they are worded *)

Section Worded.

Context {C : Collaborators}.

(** "Idempotence: two consecutive resolve calls with identical (proxy,
    copyParams, wantMips) issue at most one GPU copy; the second call is a
    cache hit." *)
Definition idempotentResolve (a : GrTextureAdjuster) (cp : CopyParams) (wantMips : bool)
  (w : World) : Prop :=
  let r1 := refTextureProxyCopy a cp wantMips w in
  let r2 := refTextureProxyCopy a cp wantMips (world r1) in
  (gpuCopies (events r1 ++ events r2) <= 1)%nat /\
  exists cc : GrTextureProxy,
    findByKey (makeCopyKey a cp) (keyed (world r1)) = Some cc /\
    satisfies wantMips cc = true /\
    r2 = (Returned (Some cc), world r1,
          [EvFindOrCreateProxyByUniqueKey (makeCopyKey a cp) (origin (fOriginal a))]).

(** "Mip upgrade: given a cached non-mipped copy at key K, a subsequent
    request with wantMips=true results in exactly one new copy, K pointing
    only to the new (mipped) entry afterward, and the old entry remaining
    valid but unreachable via K", with the order of section 4.3: "the key is
    detached from the old entry before being attached to the new one, so the
    cache never exposes two live entries under one key".  [new] is the new
    copy. *)
Definition supersededBy (a : GrTextureAdjuster) (cp : CopyParams)
  (old new : GrTextureProxy) (w : World) : Prop :=
  let key := makeCopyKey a cp in
  let r := refTextureProxyCopy a cp true w in
  outcome r = Returned (Some new) /\
  mipMapped new = kYes /\
  events r = [EvFindOrCreateProxyByUniqueKey key (origin (fOriginal a));
              EvCopyOnGpu (fOriginal a) cp true;
              EvRemoveUniqueKeyFromProxy key old;
              EvAssignUniqueKeyToProxy key new] /\
  keyed (world r) = assignKey key new (removeKey key old (keyed w)) /\
  (entriesUnder key (keyed w) <= 1)%nat /\
  (entriesUnder key (removeKey key old (keyed w)) <= 1)%nat /\
  (entriesUnder key (keyed (world r)) <= 1)%nat /\
  findByKey key (keyed (world r)) = Some new /\
  (forall p : GrTextureProxy, In (key, p) (keyed (world r)) -> p = new) /\
  (forall e : GrUniqueKey * GrTextureProxy,
     In e (keyed w) -> GrUniqueKey_eqb key (fst e) = false -> In e (keyed (world r))).

(** "Downgrade termination: a bicubic request whose domain computation yields
    TightCopyRequested always resolves, after exactly one retry, to Clamped or
    NoDomain": the solver is called with the filter of the request and then
    once with bilerp, and the mode handed to the assembly is [kDomain] or
    [kNoDomain]. *)
Definition downgradeTermination (a : GrTextureAdjuster) (origTextureMatrix : SkMatrix)
  (constraintRect : SkRect SkScalar) (fc : FilterConstraint) (coordsLimited : bool)
  (filterOrNullForBicubic : option Filter) (dst : option SkColorSpace)
  (domain : SkRect SkScalar) (cp : CopyParams) (w : World) : Prop :=
  let r := createFragmentProcessor a origTextureMatrix constraintRect fc coordsLimited
             filterOrNullForBicubic dst domain cp w in
  solverFilters (events r) = [filterOrNullForBicubic; Some kBilerp] /\
  exists mode : DomainMode,
    assembledModes (events r) = [mode] /\
    (mode = kDomain_DomainMode \/ mode = kNoDomain_DomainMode).

Definition mipUpgrade (a : GrTextureAdjuster) (cp : CopyParams) (old : GrTextureProxy)
  (w : World) : Prop :=
  exists new : GrTextureProxy, supersededBy a cp old new w.

End Worded.

(** ** Notions of the further properties *)

(** The cache holds at most one entry under every key. *)
Definition uniqueKeys (c : list (GrUniqueKey * GrTextureProxy)) : Prop :=
  forall k : GrUniqueKey, (entriesUnder k c <= 1)%nat.

Section Further.

Context {C : Collaborators}.

Definition isCreateFragmentProcessor (e : Event) : bool :=
  match e with
  | EvCreateFragmentProcessorForDomainAndFilter _ _ _ _ _ => true
  | _ => false
  end.

Definition isColorSpaceXform (e : Event) : bool :=
  match e with
  | EvGrColorSpaceXformEffect_Make => true
  | _ => false
  end.

(** The state [w] with the provider recording a DDL or not. *)
Definition withRecordingDDL (b : bool) (w : World) : World :=
  {| provider := {| uniquelyKeyedProxies := uniquelyKeyedProxies (provider w);
                    recordingDDL := b;
                    contextUniqueID := contextUniqueID (provider w) |};
     gpuScript := gpuScript w |}.

(** The texture matrix of lines 143 to 145. *)
Definition handedMatrix (a : GrTextureAdjuster) (origTextureMatrix : SkMatrix)
  (p : GrTextureProxy) (scaleAdjust : SkScalar * SkScalar) : SkMatrix :=
  if samePointer p (fOriginal a) then origTextureMatrix
  else postScale (fst scaleAdjust) (snd scaleAdjust) origTextureMatrix.

(** The mode and domain of lines 147 to 163 when no assertion stops the run:
    the answer of the solver, or its answer to the retry with bilerp when the
    first answer asks for a tight copy. *)
Definition finalDomain (constraintRect : SkRect SkScalar) (fc : FilterConstraint)
  (coordsLimited : bool) (p : GrTextureProxy) (filterOrNull : option Filter)
  (domain : SkRect SkScalar) : DomainMode * SkRect SkScalar :=
  let first := DetermineDomainMode constraintRect fc coordsLimited p filterOrNull domain in
  if DomainMode_eqb kTightCopy_DomainMode (fst first)
  then DetermineDomainMode constraintRect fc coordsLimited p (Some kBilerp) (snd first)
  else first.

(** The selection that [onRefTextureProxyForParams] returns on a live
    context for the proxy [res]. *)
Definition selectionOf (cps : GrCaps) (a : GrTextureAdjuster) (params : GrSamplerState)
  (tex : option (option SkColorSpace)) (copyParams : CopyParams)
  (scaleAdjust : SkScalar * SkScalar) (res : option GrTextureProxy) : Selection :=
  {| selected := res;
     outScaleAdjust := analysedScaleAdjust cps a params copyParams scaleAdjust;
     outTexColorSpace := texColorSpaceOut a tex |}.

End Further.

(** ** Further samples *)

(** A second adjuster of the sample content: the same content identity and
    original, another alpha type and colour space. *)
Definition otherAdjuster : @GrTextureAdjuster (sampleDevice true) :=
  @Build_GrTextureAdjuster (sampleDevice true) (Some sampleContext) sampleOriginal
    kOpaque_SkAlphaType (Some 5%N) 42.

(** An original wider than the 4096 texels of the sample device. *)
Definition hugeOriginal : GrTextureProxy :=
  {| addr := 9; width := 5000; height := 100; mipMapped := kNo;
     origin := kTopLeft_GrSurfaceOrigin |}.

Definition hugeAdjuster : @GrTextureAdjuster (sampleDevice true) :=
  @Build_GrTextureAdjuster (sampleDevice true) (Some sampleContext) hugeOriginal
    kPremul_SkAlphaType None 43.

(** The sample adjuster in a build without assertions. *)
Definition releaseAdjuster : @GrTextureAdjuster (sampleDevice false) :=
  sampleAdjuster false (Some sampleContext) 42.

(** A cache that holds a plain copy under the sample key, and an engine that
    answers with a mipped copy. *)
Definition upgradeWorld : World :=
  sampleWorld [(sampleKey true, samplePlainCopy)] [Some sampleMippedCopy].

(** * Properties *)

Unset Implicit Arguments.

Section Selection.

Context {C : Collaborators}.

Lemma SkASSERT_passes (cond : bool) (w : World) :
  passes cond -> SkASSERT cond w = (Returned tt, w, []).
Proof.
  unfold passes, SkASSERT. intros H.
  destruct SK_DEBUG; simpl; [rewrite H by reflexivity|]; reflexivity.
Qed.

Lemma SkASSERT_fails (cond : bool) (w : World) :
  SK_DEBUG = true -> cond = false -> SkASSERT cond w = (AssertionFailed, w, []).
Proof.
  unfold SkASSERT. intros -> ->. reflexivity.
Qed.

Lemma SkASSERT_release (cond : bool) (w : World) :
  SK_DEBUG = false -> SkASSERT cond w = (Returned tt, w, []).
Proof.
  unfold SkASSERT. intros ->. reflexivity.
Qed.

Lemma bind_returned {A B : Type} (m : M A) (k : A -> M B) (w w1 : World) (a : A)
  (e1 : list Event) :
  m w = (Returned a, w1, e1) ->
  bind m k w = (fst (fst (k a w1)), snd (fst (k a w1)), e1 ++ snd (k a w1)).
Proof.
  unfold bind. intros ->. destruct (k a w1) as [[o w2] e2]. reflexivity.
Qed.

Lemma copyOrFallBack_on_null (a : GrTextureAdjuster) (cp : CopyParams)
  (willBeMipped mipsOnly : bool) (w w1 : World) (e1 : list Event) :
  refTextureProxyCopy a cp willBeMipped w = (Returned None, w1, e1) ->
  copyOrFallBack a cp willBeMipped mipsOnly w =
    (Returned (if mipsOnly then Some (fOriginal a) else None), w1, e1).
Proof.
  intros H. unfold copyOrFallBack.
  rewrite (bind_returned _ _ _ _ _ _ H).
  destruct mipsOnly; simpl; rewrite app_nil_r; reflexivity.
Qed.

(** C5.  When the context was abandoned ([fContext] is null), the selection
    returns null at once: the state is left as it was and no collaborator is
    called, so there is no analysis, no cache query and no GPU copy. *)
Theorem abandoned_context_selects_null :
  forall (a : GrTextureAdjuster) (params : GrSamplerState)
         (dst : option SkColorSpace) (tex : option (option SkColorSpace))
         (willBeMipped : bool) (sa : SkScalar * SkScalar) (cp : CopyParams) (w : World),
    fContext a = None ->
    onRefTextureProxyForParams a params dst tex willBeMipped sa cp w =
      (Returned {| selected := None; outScaleAdjust := sa; outTexColorSpace := tex |},
       w, []).
Proof.
  intros a params dst tex willBeMipped sa cp w Hctx.
  unfold onRefTextureProxyForParams. rewrite Hctx. reflexivity.
Qed.

(** C7.  On a live context, when the analysis finds that no copy is needed
    (the wrap mode asks for none and the mips ask for none), the selection
    returns the original proxy itself; the state is unchanged and only the
    analysers were called. *)
Theorem no_copy_needed_selects_original :
  forall (a : GrTextureAdjuster) (ctx : GrContext) (params : GrSamplerState)
         (dst : option SkColorSpace) (tex : option (option SkColorSpace))
         (willBeMipped : bool) (sa : SkScalar * SkScalar) (cp : CopyParams) (w : World),
    fContext a = Some ctx ->
    passes (fitsMaxTextureSize a ctx) ->
    copyNeeded (caps ctx) a params cp sa = false ->
    onRefTextureProxyForParams a params dst tex willBeMipped sa cp w =
      (Returned {| selected := Some (fOriginal a);
                   outScaleAdjust := analysedScaleAdjust (caps ctx) a params cp sa;
                   outTexColorSpace := texColorSpaceOut a tex |},
       w, analysisEvents (caps ctx) a params cp sa).
Proof.
  intros a ctx params dst tex willBeMipped sa cp w Hctx Hsize Hneed.
  unfold copyNeeded in Hneed. apply orb_false_iff in Hneed as [Hwrap Hmips].
  unfold copyForMipsOnly in Hmips. rewrite Hwrap in Hmips. simpl in Hmips.
  unfold analysisEvents, analysedScaleAdjust. rewrite Hwrap.
  unfold copyForWrapMode in Hwrap. unfold mipAnalysis in Hmips.
  unfold onRefTextureProxyForParams. rewrite Hctx.
  unfold bind at 1. rewrite (SkASSERT_passes _ _ Hsize).
  unfold repeatAnalysis in *. unfold originalProxyRef.
  destruct (isRepeated params).
  - unfold callIsACopyNeededForRepeatWrapMode, callIsACopyNeededForMips, bind, emit, ret.
    destruct (IsACopyNeededForRepeatWrapMode _ _ _ _ _ _ _) as [[b cp'] sa'].
    simpl in Hwrap, Hmips. subst b. simpl.
    destruct (IsACopyNeededForMips _ _ _ _) as [b2 cp2]. simpl in Hmips. subst b2.
    reflexivity.
  - unfold callIsACopyNeededForMips, bind, emit, ret. simpl in *.
    destruct (IsACopyNeededForMips _ _ _ _) as [b2 cp2]. simpl in Hmips. subst b2.
    reflexivity.
Qed.

(** C1.  On a live context, when the analysis asks for a copy and the copy
    cache gateway [refTextureProxyCopy] returns null: the selection returns
    the original proxy if the copy was asked for the mips only, and null if
    it was asked for the wrap mode. *)
Theorem failed_copy_falls_back_for_mips_only :
  forall (a : GrTextureAdjuster) (ctx : GrContext) (params : GrSamplerState)
         (dst : option SkColorSpace) (tex : option (option SkColorSpace))
         (willBeMipped : bool) (sa : SkScalar * SkScalar) (cp : CopyParams)
         (w w1 : World) (e1 : list Event),
    fContext a = Some ctx ->
    passes (fitsMaxTextureSize a ctx) ->
    copyNeeded (caps ctx) a params cp sa = true ->
    refTextureProxyCopy a (analysedCopyParams (caps ctx) a params cp sa) willBeMipped w =
      (Returned None, w1, e1) ->
    onRefTextureProxyForParams a params dst tex willBeMipped sa cp w =
      (Returned {| selected := if copyForMipsOnly (caps ctx) a params cp sa
                               then Some (fOriginal a) else None;
                   outScaleAdjust := analysedScaleAdjust (caps ctx) a params cp sa;
                   outTexColorSpace := texColorSpaceOut a tex |},
       w1, analysisEvents (caps ctx) a params cp sa ++ e1).
Proof.
  intros a ctx params dst tex willBeMipped sa cp w w1 e1 Hctx Hsize Hneed Hcopy.
  unfold copyNeeded in Hneed.
  unfold analysisEvents, analysedScaleAdjust, analysedCopyParams in *.
  unfold copyForMipsOnly in *.
  unfold onRefTextureProxyForParams. rewrite Hctx.
  unfold bind at 1. rewrite (SkASSERT_passes _ _ Hsize).
  unfold copyForWrapMode, mipAnalysis, repeatAnalysis in *. unfold originalProxyRef.
  destruct (isRepeated params).
  - unfold callIsACopyNeededForRepeatWrapMode, callIsACopyNeededForMips.
    unfold bind at 1. unfold bind at 1. unfold emit, ret.
    destruct (IsACopyNeededForRepeatWrapMode _ _ _ _ _ _ _) as [[b cp'] sa'].
    simpl in Hneed, Hcopy |- *. destruct b; simpl in Hneed, Hcopy |- *.
    + unfold bind. rewrite (copyOrFallBack_on_null _ _ _ false _ _ _ Hcopy).
      simpl. rewrite ?app_nil_r. reflexivity.
    + unfold bind at 1. unfold bind at 1. unfold emit, ret.
      destruct (IsACopyNeededForMips _ _ _ _) as [b2 cp2].
      simpl in Hneed, Hcopy |- *. subst b2. simpl.
      unfold bind. rewrite (copyOrFallBack_on_null _ _ _ true _ _ _ Hcopy).
      simpl. rewrite ?app_nil_r. reflexivity.
  - simpl in Hneed, Hcopy |- *.
    unfold callIsACopyNeededForMips.
    unfold bind at 1. unfold ret at 1. simpl.
    unfold bind at 1. unfold bind at 1. unfold emit, ret.
    destruct (IsACopyNeededForMips _ _ _ _) as [b2 cp2].
    simpl in Hneed, Hcopy |- *. subst b2. simpl.
    unfold bind. rewrite (copyOrFallBack_on_null _ _ _ true _ _ _ Hcopy).
    simpl. rewrite ?app_nil_r. reflexivity.
Qed.

End Selection.

(** ** The copy cache gateway *)

Section Gateway.

Context {C : Collaborators}.

Lemma words_eqb_refl (l : list Z) : words_eqb l l = true.
Proof.
  induction l as [|x l IH]; simpl; [reflexivity|].
  rewrite Z.eqb_refl. exact IH.
Qed.

Lemma words_eqb_eq (l l' : list Z) : words_eqb l l' = true -> l = l'.
Proof.
  revert l'. induction l as [|x l IH]; intros [|y l'] H; simpl in H;
    try discriminate; [reflexivity|].
  apply andb_true_iff in H as [Hx Hl].
  apply Z.eqb_eq in Hx. subst y. f_equal. apply IH. exact Hl.
Qed.

Lemma GrUniqueKey_eqb_refl (k : GrUniqueKey) : GrUniqueKey_eqb k k = true.
Proof.
  destruct k; simpl; [reflexivity|apply words_eqb_refl].
Qed.

Lemma GrUniqueKey_eqb_eq (k k' : GrUniqueKey) : GrUniqueKey_eqb k k' = true -> k = k'.
Proof.
  destruct k, k'; simpl; intros H; try discriminate; [reflexivity|].
  f_equal. apply words_eqb_eq. exact H.
Qed.

Lemma samePointer_refl (p : GrTextureProxy) : samePointer p p = true.
Proof.
  unfold samePointer. apply N.eqb_refl.
Qed.

(** Detaching [k] from the proxy found under it leaves nothing under [k] when
    the cache held one entry under [k]. *)
Lemma removeKey_found_single (k : GrUniqueKey) (old : GrTextureProxy)
  (c : list (GrUniqueKey * GrTextureProxy)) :
  findByKey k c = Some old ->
  entriesUnder k c = 1%nat ->
  entriesUnder k (removeKey k old c) = 0%nat.
Proof.
  unfold entriesUnder, removeKey.
  induction c as [|[k' p] c IH]; simpl; intros Hfind Hone; [discriminate|].
  destruct (GrUniqueKey_eqb k k') eqn:Hk; simpl in *.
  - injection Hfind as ->. rewrite samePointer_refl. simpl.
    injection Hone as Hzero.
    clear IH. induction c as [|[k2 p2] c IH]; simpl in *; [reflexivity|].
    destruct (GrUniqueKey_eqb k k2) eqn:Hk2; simpl in *; [discriminate|].
    rewrite Hk2. apply IH. exact Hzero.
  - rewrite Hk. apply IH; assumption.
Qed.

(** Detaching [k] from a proxy keeps every entry under another key. *)
Lemma removeKey_keeps_other_keys (k : GrUniqueKey) (old : GrTextureProxy)
  (c : list (GrUniqueKey * GrTextureProxy)) (e : GrUniqueKey * GrTextureProxy) :
  In e c -> GrUniqueKey_eqb k (fst e) = false -> In e (removeKey k old c).
Proof.
  unfold removeKey. intros Hin Hk. apply filter_In. split; [exact Hin|].
  rewrite Hk. reflexivity.
Qed.

Lemma entriesUnder_zero_not_in (k : GrUniqueKey) (c : list (GrUniqueKey * GrTextureProxy))
  (p : GrTextureProxy) :
  entriesUnder k c = 0%nat -> ~ In (k, p) c.
Proof.
  unfold entriesUnder. intros Hzero Hin.
  assert (Hf : In (k, p) (filter (fun e => GrUniqueKey_eqb k (fst e)) c)).
  { apply filter_In. split; [exact Hin|]. simpl. apply GrUniqueKey_eqb_refl. }
  destruct (filter _ c); [exact Hf|discriminate].
Qed.

(** What a run of [copyAndRegister] that returns a proxy has done, for a
    valid key. *)
Lemma copyAndRegister_returns (a : GrTextureAdjuster) (key : GrUniqueKey)
  (cached : option GrTextureProxy) (cp : CopyParams) (wbm : bool)
  (w w1 : World) (p : GrTextureProxy) (e1 : list Event) :
  isValid key = true ->
  copyAndRegister a key cached cp wbm w = (Returned (Some p), w1, e1) ->
  gpuScript w = Some p :: gpuScript w1 /\
  keyed w1 = assignKey key p (match cached with
                              | Some cc => removeKey key cc (keyed w)
                              | None => keyed w
                              end) /\
  e1 = EvCopyOnGpu (fOriginal a) cp wbm ::
       (match cached with
        | Some cc => [EvRemoveUniqueKeyFromProxy key cc]
        | None => []
        end) ++ [EvAssignUniqueKeyToProxy key p].
Proof.
  intros Hvalid. unfold copyAndRegister, originalProxyRef, originalProxy.
  unfold bind at 1. unfold CopyOnGpu.
  destruct (gpuScript w) as [|[c|] rest] eqn:Hscript; simpl;
    try (intros H; discriminate H).
  rewrite Hvalid.
  unfold bind, SkASSERT, isRecordingDDL, getContextUniqueID, didCacheCopy,
    removeUniqueKeyFromProxy, assignUniqueKeyToProxy, ret.
  destruct (SK_DEBUG && negb (GrSurfaceOrigin_eqb _ _)); simpl;
    [intros H; discriminate H|].
  destruct cached as [cc|]; simpl.
  - destruct (SK_DEBUG && negb _); simpl; [intros H; discriminate H|].
    destruct (recordingDDL (provider w)); simpl;
      intros H; injection H as <- <- <-; repeat split; reflexivity.
  - destruct (recordingDDL (provider w)); simpl;
      intros H; injection H as <- <- <-; repeat split; reflexivity.
Qed.

End Gateway.

Section GatewayClaims.

Context {C : Collaborators}.

Lemma refTextureProxyCopy_hit (a : GrTextureAdjuster) (cp : CopyParams) (wbm : bool)
  (w : World) (cc : GrTextureProxy) :
  isValid (makeCopyKey a cp) = true ->
  findByKey (makeCopyKey a cp) (keyed w) = Some cc ->
  satisfies wbm cc = true ->
  refTextureProxyCopy a cp wbm w =
    (Returned (Some cc), w,
     [EvFindOrCreateProxyByUniqueKey (makeCopyKey a cp) (origin (fOriginal a))]).
Proof.
  intros Hvalid Hfind Hsat.
  unfold refTextureProxyCopy. rewrite Hvalid.
  unfold bind, findOrCreateProxyByUniqueKey. rewrite Hfind, Hsat.
  reflexivity.
Qed.

(** After a run that returned a proxy, the proxy is found under the key. *)
Lemma refTextureProxyCopy_registers (a : GrTextureAdjuster) (cp : CopyParams) (wbm : bool)
  (w w1 : World) (p : GrTextureProxy) (e1 : list Event) :
  isValid (makeCopyKey a cp) = true ->
  refTextureProxyCopy a cp wbm w = (Returned (Some p), w1, e1) ->
  findByKey (makeCopyKey a cp) (keyed w1) = Some p /\ (gpuCopies e1 <= 1)%nat.
Proof.
  intros Hvalid. unfold refTextureProxyCopy. rewrite Hvalid.
  unfold bind at 1. unfold findOrCreateProxyByUniqueKey.
  destruct (findByKey (makeCopyKey a cp) (keyed w)) as [cc|] eqn:Hfind.
  - destruct (satisfies wbm cc) eqn:Hsat.
    + unfold ret. simpl. intros H. injection H as <- <- <-.
      split; [exact Hfind|]. unfold gpuCopies. simpl. lia.
    + destruct (copyAndRegister a (makeCopyKey a cp) (Some cc) cp wbm w)
        as [[o w2] e2] eqn:Hrun.
      intros H. injection H as -> <- <-.
      destruct (copyAndRegister_returns _ _ _ _ _ _ _ _ _ Hvalid Hrun)
        as (_ & Hkeyed & ->).
      rewrite Hkeyed. simpl. rewrite GrUniqueKey_eqb_refl.
      split; [reflexivity|]. unfold gpuCopies. simpl. lia.
  - destruct (copyAndRegister a (makeCopyKey a cp) None cp wbm w)
      as [[o w2] e2] eqn:Hrun.
    intros H. injection H as -> <- <-.
    destruct (copyAndRegister_returns _ _ _ _ _ _ _ _ _ Hvalid Hrun)
      as (_ & Hkeyed & ->).
    rewrite Hkeyed. simpl. rewrite GrUniqueKey_eqb_refl.
    split; [reflexivity|]. unfold gpuCopies. simpl. lia.
Qed.

(** C4, as amended.  With a valid key, a cache hit whose entry satisfies
    [wantMips] is returned at once: the state is unchanged and the only call
    made is the lookup, so no GPU copy is issued.  Consequently, when the
    first of two consecutive resolves with the same arguments returns a proxy
    that satisfies [wantMips], the two issue at most one GPU copy and the
    second is a cache hit that returns the same proxy. *)
Theorem resolve_hit_is_immediate_and_idempotent :
  forall (a : GrTextureAdjuster) (cp : CopyParams) (wantMips : bool) (w : World),
    isValid (makeCopyKey a cp) = true ->
    (forall cc : GrTextureProxy,
       findByKey (makeCopyKey a cp) (keyed w) = Some cc ->
       satisfies wantMips cc = true ->
       refTextureProxyCopy a cp wantMips w =
         (Returned (Some cc), w,
          [EvFindOrCreateProxyByUniqueKey (makeCopyKey a cp) (origin (fOriginal a))])) /\
    (forall p : GrTextureProxy,
       outcome (refTextureProxyCopy a cp wantMips w) = Returned (Some p) ->
       satisfies wantMips p = true ->
       idempotentResolve a cp wantMips w /\
       outcome (refTextureProxyCopy a cp wantMips
                  (world (refTextureProxyCopy a cp wantMips w))) = Returned (Some p)).
Proof.
  intros a cp wantMips w Hvalid. split.
  - intros cc Hfind Hsat. apply refTextureProxyCopy_hit; assumption.
  - intros p Hout Hsat. unfold idempotentResolve.
    destruct (refTextureProxyCopy a cp wantMips w) as [[o w1] e1] eqn:Hrun.
    unfold outcome in Hout. simpl in Hout. subst o.
    destruct (refTextureProxyCopy_registers _ _ _ _ _ _ _ Hvalid Hrun) as [Hfind Hcount].
    unfold world, events. simpl fst. simpl snd.
    rewrite (refTextureProxyCopy_hit _ _ _ _ _ Hvalid Hfind Hsat).
    simpl. split; [split|reflexivity].
    + unfold gpuCopies in *. rewrite filter_app, length_app. simpl. lia.
    + exists p. repeat split; assumption.
Qed.

(** C9.  When the content identity is zero the key built is invalid; and
    with an invalid key the resolve is the call to the copy engine and nothing
    else: no lookup, no registration (the provider is left as it was), and
    what the engine answers is what the caller gets. *)
Theorem invalid_key_skips_cache :
  forall (a : GrTextureAdjuster) (cp : CopyParams) (wantMips : bool) (w : World),
    (fUniqueID a = 0%N -> isValid (makeCopyKey a cp) = false) /\
    (isValid (makeCopyKey a cp) = false ->
     refTextureProxyCopy a cp wantMips w = CopyOnGpu (fOriginal a) cp wantMips w /\
     events (refTextureProxyCopy a cp wantMips w) =
       [EvCopyOnGpu (fOriginal a) cp wantMips] /\
     filter isCacheLookup (events (refTextureProxyCopy a cp wantMips w)) = [] /\
     filter isRegistration (events (refTextureProxyCopy a cp wantMips w)) = [] /\
     provider (world (refTextureProxyCopy a cp wantMips w)) = provider w /\
     outcome (refTextureProxyCopy a cp wantMips w) = Returned (hd None (gpuScript w))).
Proof.
  intros a cp wantMips w. split.
  - intros Hid. unfold makeCopyKey, GrMakeKeyFromImageID. rewrite Hid. reflexivity.
  - intros Hkey.
    assert (Hrun : refTextureProxyCopy a cp wantMips w =
                   CopyOnGpu (fOriginal a) cp wantMips w).
    { unfold refTextureProxyCopy. rewrite Hkey.
      unfold copyAndRegister, originalProxyRef, bind, CopyOnGpu. rewrite Hkey.
      destruct (gpuScript w) as [|[c|] rest]; reflexivity. }
    rewrite Hrun. unfold CopyOnGpu.
    destruct (gpuScript w) as [|answer rest]; simpl; repeat split; reflexivity.
Qed.

(** A resolve that asks for mips and finds a copy without mips under the
    key asks the copy engine; when the engine answers with a mipped copy of
    the origin of the original, the key is detached from the old copy and
    then attached to the new one. *)
Lemma refTextureProxyCopy_upgrades (a : GrTextureAdjuster) (cp : CopyParams)
  (old new : GrTextureProxy) (rest : list (option GrTextureProxy)) (w : World) :
  isValid (makeCopyKey a cp) = true ->
  findByKey (makeCopyKey a cp) (keyed w) = Some old ->
  mipMapped old = kNo ->
  gpuScript w = Some new :: rest ->
  mipMapped new = kYes ->
  passes (GrSurfaceOrigin_eqb (origin new) (origin (fOriginal a))) ->
  refTextureProxyCopy a cp true w =
    (Returned (Some new),
     setKeyed (assignKey (makeCopyKey a cp) new
                 (removeKey (makeCopyKey a cp) old (keyed w)))
       {| provider := provider w; gpuScript := rest |},
     [EvFindOrCreateProxyByUniqueKey (makeCopyKey a cp) (origin (fOriginal a));
      EvCopyOnGpu (fOriginal a) cp true;
      EvRemoveUniqueKeyFromProxy (makeCopyKey a cp) old;
      EvAssignUniqueKeyToProxy (makeCopyKey a cp) new]).
Proof.
  intros Hvalid Hfind Hold Hscript Hnew Horigin.
  unfold refTextureProxyCopy. rewrite Hvalid.
  unfold bind at 1. unfold findOrCreateProxyByUniqueKey. rewrite Hfind.
  unfold satisfies. rewrite Hold. simpl.
  unfold copyAndRegister, originalProxyRef, originalProxy.
  unfold bind at 1. unfold CopyOnGpu. rewrite Hscript. rewrite Hvalid.
  unfold bind at 1. rewrite (SkASSERT_passes _ _ Horigin).
  rewrite Hnew, Hold. simpl.
  unfold bind, SkASSERT, isRecordingDDL, getContextUniqueID, didCacheCopy,
    removeUniqueKeyFromProxy, assignUniqueKeyToProxy, ret, setKeyed, keyed.
  rewrite andb_false_r. simpl.
  destruct (recordingDDL (provider w)); reflexivity.
Qed.

(** A resolve that asks for mips and finds a copy without mips under the
    key asks the copy engine exactly once, whatever the engine answers and
    whether or not an assertion stops the run afterwards. *)
Lemma refTextureProxyCopy_stale_copies_once (a : GrTextureAdjuster) (cp : CopyParams)
  (old : GrTextureProxy) (w : World) :
  isValid (makeCopyKey a cp) = true ->
  findByKey (makeCopyKey a cp) (keyed w) = Some old ->
  mipMapped old = kNo ->
  gpuCopies (events (refTextureProxyCopy a cp true w)) = 1%nat /\
  filter isCopyOnGpu (events (refTextureProxyCopy a cp true w)) =
    [EvCopyOnGpu (fOriginal a) cp true] /\
  gpuScript (world (refTextureProxyCopy a cp true w)) = tl (gpuScript w).
Proof.
  intros Hvalid Hfind Hold.
  unfold gpuCopies, refTextureProxyCopy, copyAndRegister, originalProxyRef, originalProxy,
    bind, findOrCreateProxyByUniqueKey, CopyOnGpu, SkASSERT, isRecordingDDL,
    getContextUniqueID, didCacheCopy, removeUniqueKeyFromProxy, assignUniqueKeyToProxy,
    ret, events, world, setKeyed, satisfies.
  rewrite Hvalid, Hfind, Hold. simpl.
  destruct (gpuScript w) as [|[c|] rest] eqn:Hscript; simpl; rewrite ?Hscript;
    try (repeat split; reflexivity).
  destruct SK_DEBUG; simpl;
    destruct (GrSurfaceOrigin_eqb (origin c) (origin (fOriginal a))); simpl;
    try (repeat split; reflexivity);
    destruct (mipMapped c); simpl;
    try (repeat split; reflexivity);
    destruct (recordingDDL (provider w)); simpl; repeat split; reflexivity.
Qed.

(** C2, as amended.  Let the cache hold a copy [old] without mips under the
    valid key K, and nothing else under K, and let a resolve ask for mips.
    The resolve asks the copy engine exactly once, whatever the engine
    answers: the log holds the one call of [CopyOnGpu] for the original and
    one answer of the engine is used up.  When the copy engine answers with
    a mipped copy [new] of the origin of the original, the resolve issues
    that one GPU copy, detaches K from [old] and then attaches it to [new]:
    the cache holds at most one entry under K before, between and after the
    two steps; afterwards K finds [new], no entry under K is another proxy
    (so [old] is not found under K), and every entry under another key is
    kept.  When the copy engine fails, the resolve returns null after that
    one attempt and the cache is as it was: K still finds [old]. *)
Theorem mip_upgrade_supersedes_old_entry :
  forall (a : GrTextureAdjuster) (cp : CopyParams) (old : GrTextureProxy) (w : World),
    isValid (makeCopyKey a cp) = true ->
    findByKey (makeCopyKey a cp) (keyed w) = Some old ->
    entriesUnder (makeCopyKey a cp) (keyed w) = 1%nat ->
    mipMapped old = kNo ->
    (gpuCopies (events (refTextureProxyCopy a cp true w)) = 1%nat /\
     filter isCopyOnGpu (events (refTextureProxyCopy a cp true w)) =
       [EvCopyOnGpu (fOriginal a) cp true] /\
     gpuScript (world (refTextureProxyCopy a cp true w)) = tl (gpuScript w)) /\
    (forall (new : GrTextureProxy) (rest : list (option GrTextureProxy)),
       gpuScript w = Some new :: rest ->
       mipMapped new = kYes ->
       passes (GrSurfaceOrigin_eqb (origin new) (origin (fOriginal a))) ->
       supersededBy a cp old new w /\
       gpuCopies (events (refTextureProxyCopy a cp true w)) = 1%nat /\
       ~ In (makeCopyKey a cp, old) (keyed (world (refTextureProxyCopy a cp true w)))) /\
    (hd None (gpuScript w) = None ->
     outcome (refTextureProxyCopy a cp true w) = Returned None /\
     gpuCopies (events (refTextureProxyCopy a cp true w)) = 1%nat /\
     keyed (world (refTextureProxyCopy a cp true w)) = keyed w /\
     findByKey (makeCopyKey a cp) (keyed (world (refTextureProxyCopy a cp true w))) =
       Some old).
Proof.
  intros a cp old w Hvalid Hfind Hone Hold.
  split; [exact (refTextureProxyCopy_stale_copies_once a cp old w Hvalid Hfind Hold)|].
  split.
  - intros new rest Hscript Hnew Horigin.
    pose proof (refTextureProxyCopy_upgrades a cp old new rest w Hvalid Hfind Hold
                  Hscript Hnew Horigin) as Hrun.
    pose proof (removeKey_found_single _ _ _ Hfind Hone) as Hzero.
    assert (Hafter : entriesUnder (makeCopyKey a cp)
                       (assignKey (makeCopyKey a cp) new
                          (removeKey (makeCopyKey a cp) old (keyed w))) = 1%nat).
    { unfold entriesUnder in *. unfold assignKey. simpl.
      rewrite GrUniqueKey_eqb_refl. simpl. rewrite Hzero. reflexivity. }
    assert (Honly : forall p, In (makeCopyKey a cp, p)
                      (assignKey (makeCopyKey a cp) new
                         (removeKey (makeCopyKey a cp) old (keyed w))) -> p = new).
    { intros p [Heq|Hin].
      - injection Heq as <-. reflexivity.
      - exfalso. exact (entriesUnder_zero_not_in _ _ _ Hzero Hin). }
    unfold supersededBy. rewrite Hrun.
    unfold outcome, world, events, keyed, setKeyed. simpl fst. simpl snd.
    cbn [provider uniquelyKeyedProxies].
    fold (keyed w).
    split; [|split].
    + repeat split; try reflexivity; try assumption; try lia.
      * simpl. rewrite GrUniqueKey_eqb_refl. reflexivity.
      * intros e Hin Hk. right. apply removeKey_keeps_other_keys; assumption.
    + reflexivity.
    + intros Hin. apply Honly in Hin. rewrite Hin in Hold. rewrite Hold in Hnew.
      discriminate Hnew.
  - intros Hfail.
    assert (Hrun : refTextureProxyCopy a cp true w =
              (Returned None, {| provider := provider w; gpuScript := tl (gpuScript w) |},
               [EvFindOrCreateProxyByUniqueKey (makeCopyKey a cp) (origin (fOriginal a));
                EvCopyOnGpu (fOriginal a) cp true])).
    { unfold refTextureProxyCopy. rewrite Hvalid.
      unfold bind at 1. unfold findOrCreateProxyByUniqueKey. rewrite Hfind.
      unfold satisfies. rewrite Hold. simpl.
      unfold copyAndRegister, originalProxyRef, bind, CopyOnGpu.
      destruct w as [prov script]. simpl in *.
      destruct script as [|[c|] rest]; simpl in Hfail; try discriminate Hfail;
        reflexivity. }
    rewrite Hrun. unfold outcome, world, events, keyed in *. simpl.
    repeat split; try reflexivity. exact Hfind.
Qed.

End GatewayClaims.

(** ** The adjustment facade *)

Section Facade.

Context {C : Collaborators}.

Lemma emitsOnly_ret {A : Type} (P : Event -> bool) (x : A) : emitsOnly P (ret x).
Proof.
  intros w. reflexivity.
Qed.

Lemma emitsOnly_bind {A B : Type} (P : Event -> bool) (m : M A) (k : A -> M B) :
  emitsOnly P m -> (forall x : A, emitsOnly P (k x)) -> emitsOnly P (bind m k).
Proof.
  intros Hm Hk w. unfold bind. specialize (Hm w).
  destruct (m w) as [[[x|] w1] e1]; unfold events in *; simpl in *; [|exact Hm].
  specialize (Hk x w1). destruct (k x w1) as [[o w2] e2]. simpl in *.
  rewrite forallb_app, Hm, Hk. reflexivity.
Qed.

Lemma emitsOnly_emit (P : Event -> bool) (e : Event) : P e = true -> emitsOnly P (emit e).
Proof.
  intros H w. unfold emit, events. simpl. rewrite H. reflexivity.
Qed.

Lemma emitsOnly_SkASSERT (P : Event -> bool) (cond : bool) : emitsOnly P (SkASSERT cond).
Proof.
  intros w. unfold SkASSERT. destruct (SK_DEBUG && negb cond); reflexivity.
Qed.

Ltac emits_step :=
  first
    [ apply emitsOnly_ret
    | apply emitsOnly_SkASSERT
    | apply emitsOnly_emit; reflexivity
    | apply emitsOnly_bind; [|intros ?]
    | match goal with
      | |- emitsOnly _ (if ?b then _ else _) => destruct b
      | |- emitsOnly _ (match ?x with _ => _ end) => destruct x
      end ].

Lemma CopyOnGpu_emits (src : GrTextureProxy) (cp : CopyParams) (wbm : bool) :
  emitsOnly isSelectionEvent (CopyOnGpu src cp wbm).
Proof.
  intros w. unfold CopyOnGpu. destruct (gpuScript w); reflexivity.
Qed.

Lemma copyAndRegister_emits (a : GrTextureAdjuster) (key : GrUniqueKey)
  (cached : option GrTextureProxy) (cp : CopyParams) (wbm : bool) :
  emitsOnly isSelectionEvent (copyAndRegister a key cached cp wbm).
Proof.
  unfold copyAndRegister.
  apply emitsOnly_bind; [apply CopyOnGpu_emits|intros copy].
  destruct copy as [c|]; [|apply emitsOnly_ret].
  destruct (isValid key); [|apply emitsOnly_ret].
  repeat emits_step; intros w; reflexivity.
Qed.

Lemma refTextureProxyCopy_emits (a : GrTextureAdjuster) (cp : CopyParams) (wbm : bool) :
  emitsOnly isSelectionEvent (refTextureProxyCopy a cp wbm).
Proof.
  unfold refTextureProxyCopy.
  destruct (isValid (makeCopyKey a cp)); [|apply copyAndRegister_emits].
  apply emitsOnly_bind; [intros w; reflexivity|intros cached].
  destruct cached as [cc|]; [|apply copyAndRegister_emits].
  destruct (satisfies wbm cc); [apply emitsOnly_ret|apply copyAndRegister_emits].
Qed.

Lemma copyOrFallBack_emits (a : GrTextureAdjuster) (cp : CopyParams) (wbm mipsOnly : bool) :
  emitsOnly isSelectionEvent (copyOrFallBack a cp wbm mipsOnly).
Proof.
  unfold copyOrFallBack.
  apply emitsOnly_bind; [apply refTextureProxyCopy_emits|intros result].
  repeat emits_step.
Qed.

Lemma onRefTextureProxyForParams_emits (a : GrTextureAdjuster) (params : GrSamplerState)
  (dst : option SkColorSpace) (tex : option (option SkColorSpace)) (wbm : bool)
  (sa : SkScalar * SkScalar) (cp : CopyParams) :
  emitsOnly isSelectionEvent (onRefTextureProxyForParams a params dst tex wbm sa cp).
Proof.
  unfold onRefTextureProxyForParams.
  destruct (fContext a) as [ctx|]; [|apply emitsOnly_ret].
  apply emitsOnly_bind; [apply emitsOnly_SkASSERT|intros _].
  apply emitsOnly_bind.
  - unfold callIsACopyNeededForRepeatWrapMode. repeat emits_step.
  - intros [[b cp'] sa'].
    destruct (negb b).
    + apply emitsOnly_bind.
      * unfold callIsACopyNeededForMips. repeat emits_step.
      * intros [b2 cp2]. destruct (negb b2); [apply emitsOnly_ret|].
        apply emitsOnly_bind; [apply copyOrFallBack_emits|intros r; apply emitsOnly_ret].
    + apply emitsOnly_bind; [apply copyOrFallBack_emits|intros r; apply emitsOnly_ret].
Qed.

Lemma selection_events_hold_no_solver_call (l : list Event) :
  forallb isSelectionEvent l = true ->
  solverFilters l = [] /\ assembledModes l = [] /\ assembledMatrices l = [] /\
  filter isDetermineDomainMode l = [] /\ filter isAssembly l = [] /\
  assembledDomains l = [].
Proof.
  induction l as [|e l IH]; simpl; intros H; [repeat split; reflexivity|].
  apply andb_true_iff in H as [He Hl].
  destruct (IH Hl) as (H1 & H2 & H3 & H4 & H5 & H6).
  destruct e; simpl in He; try discriminate He; simpl; repeat split; assumption.
Qed.

Lemma refTextureProxyForParams_events (a : GrTextureAdjuster) (sampler : GrSamplerState)
  (dst : option SkColorSpace) (tex : option (option SkColorSpace))
  (sa : SkScalar * SkScalar) (cp : CopyParams) (w : World) :
  forallb isSelectionEvent
    (events (refTextureProxyForParams a sampler dst tex sa cp w)) = true.
Proof.
  unfold refTextureProxyForParams. apply onRefTextureProxyForParams_emits.
Qed.

(** C10.  When the selection of the texture returns null,
    [createFragmentProcessor] returns null: its state and its log are those
    of the selection, in which there is no call of the domain solver and no
    call of the assembly. *)
Theorem null_selection_gives_null_processor :
  forall (a : GrTextureAdjuster) (origTextureMatrix : SkMatrix)
         (constraintRect : SkRect SkScalar) (fc : FilterConstraint) (coordsLimited : bool)
         (filterOrNull : option Filter) (dst : option SkColorSpace)
         (domain : SkRect SkScalar) (cp : CopyParams) (w w1 : World)
         (sel : Selection) (e1 : list Event),
    refTextureProxyForParams a (samplerStateFor filterOrNull) None None
      (SK_Scalar1, SK_Scalar1) cp w = (Returned sel, w1, e1) ->
    selected sel = None ->
    createFragmentProcessor a origTextureMatrix constraintRect fc coordsLimited
      filterOrNull dst domain cp w = (Returned None, w1, e1) /\
    filter isDetermineDomainMode e1 = [] /\
    filter isAssembly e1 = [].
Proof.
  intros a m0 rect fc lim f dst dom cp w w1 sel e1 Hsel Hnull.
  pose proof (refTextureProxyForParams_events a (samplerStateFor f) None None
                (SK_Scalar1, SK_Scalar1) cp w) as Hev.
  rewrite Hsel in Hev. unfold events in Hev. simpl in Hev.
  destruct (selection_events_hold_no_solver_call _ Hev) as (_ & _ & _ & H4 & H5 & _).
  split; [|split; assumption].
  unfold createFragmentProcessor.
  rewrite (bind_returned _ _ _ _ _ _ Hsel). rewrite Hnull.
  unfold ret. simpl. rewrite app_nil_r. reflexivity.
Qed.

Lemma createFragmentProcessor_after_selection
  (a : GrTextureAdjuster) (origTextureMatrix : SkMatrix)
  (constraintRect : SkRect SkScalar) (fc : FilterConstraint) (coordsLimited : bool)
  (filterOrNull : option Filter) (dst : option SkColorSpace)
  (domain : SkRect SkScalar) (cp : CopyParams) (w w1 : World)
  (sel : Selection) (p : GrTextureProxy) (e1 : list Event) :
  refTextureProxyForParams a (samplerStateFor filterOrNull) None None
    (SK_Scalar1, SK_Scalar1) cp w = (Returned sel, w1, e1) ->
  selected sel = Some p ->
  let r2 := sampleAndAssemble a origTextureMatrix constraintRect fc coordsLimited
              filterOrNull dst domain p (outScaleAdjust sel) w1 in
  createFragmentProcessor a origTextureMatrix constraintRect fc coordsLimited
    filterOrNull dst domain cp w = (outcome r2, world r2, e1 ++ events r2) /\
  solverFilters e1 = [] /\ assembledModes e1 = [] /\ assembledMatrices e1 = [] /\
  assembledDomains e1 = [].
Proof.
  intros Hsel Hp r2.
  pose proof (refTextureProxyForParams_events a (samplerStateFor filterOrNull) None None
                (SK_Scalar1, SK_Scalar1) cp w) as Hev.
  rewrite Hsel in Hev. unfold events in Hev. simpl in Hev.
  destruct (selection_events_hold_no_solver_call _ Hev) as (H1 & H2 & H3 & _ & _ & H6).
  split; [|repeat split; assumption].
  unfold createFragmentProcessor.
  rewrite (bind_returned _ _ _ _ _ _ Hsel). rewrite Hp. reflexivity.
Qed.

Ltac run_assemble :=
  unfold sampleAndAssemble, callDetermineDomainMode, retryTightCopy,
    callCreateFragmentProcessorForDomainAndFilter, callGrColorSpaceXformEffect_Make,
    bind, emit, ret, SkASSERT, originalProxy, outcome, world, events.

Ltac split_tests :=
  repeat (simpl;
          match goal with
          | |- context [DetermineDomainMode ?r ?c ?l ?p ?f ?d] =>
              destruct (DetermineDomainMode r c l p f d) as [? ?]
          | |- context [match ?m with kNoDomain_DomainMode => _ | _ => _ end] =>
              is_var m; destruct m
          | |- context [if ?b then _ else _] => destruct b eqn:?
          end).

(** What [sampleAndAssemble] hands to the assembly: the matrix of the
    request, scaled when the proxy is not the original, once if no assertion
    stops the run and never otherwise. *)
Lemma sampleAndAssemble_matrix
  (a : GrTextureAdjuster) (origTextureMatrix : SkMatrix)
  (constraintRect : SkRect SkScalar) (fc : FilterConstraint) (coordsLimited : bool)
  (filterOrNull : option Filter) (dst : option SkColorSpace)
  (domain : SkRect SkScalar) (p : GrTextureProxy) (sa : SkScalar * SkScalar)
  (w1 : World) :
  let r2 := sampleAndAssemble a origTextureMatrix constraintRect fc coordsLimited
              filterOrNull dst domain p sa w1 in
  assembledMatrices (events r2) =
    (if isReturned (outcome r2)
     then [if samePointer p (fOriginal a) then origTextureMatrix
           else postScale (fst sa) (snd sa) origTextureMatrix]
     else []) /\
  (SK_DEBUG = false -> isReturned (outcome r2) = true).
Proof.
  run_assemble. destruct SK_DEBUG eqn:Hdebug;
    split_tests; split; try reflexivity; try discriminate.
Qed.

(** C8.  Every texture matrix that [createFragmentProcessor] hands to the
    assembly belongs to a run whose selection returned a proxy, and it is the
    matrix of the request post-scaled by [scaleAdjust] if that proxy is not
    the original, and the matrix of the request itself if it is the original.
    When the selection returns a proxy the matrix is handed over once by a
    run that no assertion stops, as is every run of a build without
    assertions. *)
Theorem texture_matrix_scaled_for_copies_only :
  forall (a : GrTextureAdjuster) (origTextureMatrix : SkMatrix)
         (constraintRect : SkRect SkScalar) (fc : FilterConstraint) (coordsLimited : bool)
         (filterOrNull : option Filter) (dst : option SkColorSpace)
         (domain : SkRect SkScalar) (cp : CopyParams) (w : World),
    let r := createFragmentProcessor a origTextureMatrix constraintRect fc
               coordsLimited filterOrNull dst domain cp w in
    let s := refTextureProxyForParams a (samplerStateFor filterOrNull) None None
               (SK_Scalar1, SK_Scalar1) cp w in
    let handed (sel : Selection) (p : GrTextureProxy) :=
      if samePointer p (fOriginal a) then origTextureMatrix
      else postScale (fst (outScaleAdjust sel)) (snd (outScaleAdjust sel))
             origTextureMatrix in
    (forall m : SkMatrix,
       In m (assembledMatrices (events r)) ->
       exists (sel : Selection) (p : GrTextureProxy),
         outcome s = Returned sel /\ selected sel = Some p /\ m = handed sel p) /\
    (forall (sel : Selection) (p : GrTextureProxy),
       outcome s = Returned sel -> selected sel = Some p ->
       assembledMatrices (events r) =
         (if isReturned (outcome r) then [handed sel p] else []) /\
       (SK_DEBUG = false -> isReturned (outcome r) = true)).
Proof.
  intros a m0 rect fc lim f dst dom cp w r s handed.
  assert (Hsome : forall (sel : Selection) (p : GrTextureProxy),
            outcome s = Returned sel -> selected sel = Some p ->
            assembledMatrices (events r) =
              (if isReturned (outcome r) then [handed sel p] else []) /\
            (SK_DEBUG = false -> isReturned (outcome r) = true)).
  { intros sel p Hout Hp. unfold r, handed. unfold s in Hout.
    destruct (refTextureProxyForParams a (samplerStateFor f) None None
                (SK_Scalar1, SK_Scalar1) cp w) as [[o w1] e1] eqn:Hsel.
    unfold outcome in Hout. simpl in Hout. subst o.
    destruct (createFragmentProcessor_after_selection a m0 rect fc lim f dst dom cp
                w w1 sel p e1 Hsel Hp) as (Hrun & _ & _ & Hnone & _).
    rewrite Hrun.
    destruct (sampleAndAssemble_matrix a m0 rect fc lim f dst dom p
                (outScaleAdjust sel) w1) as [Hmatrix Hrelease].
    unfold events at 1. unfold outcome at 1. unfold outcome at 2. simpl.
    unfold assembledMatrices in *. rewrite flat_map_app, Hnone. simpl.
    split; assumption. }
  split; [|exact Hsome].
  intros m Hin.
  pose proof (refTextureProxyForParams_events a (samplerStateFor f) None None
                (SK_Scalar1, SK_Scalar1) cp w) as Hev.
  destruct (selection_events_hold_no_solver_call _ Hev) as (_ & _ & Hnone & _).
  clear Hev. unfold s in *. clear s.
  destruct (refTextureProxyForParams a (samplerStateFor f) None None
              (SK_Scalar1, SK_Scalar1) cp w) as [[[sel|] w1] e1] eqn:Hsel.
  - destruct (selected sel) as [p|] eqn:Hp.
    + exists sel, p. split; [reflexivity|]. split; [exact Hp|].
      destruct (Hsome sel p eq_refl Hp) as [Hmatrix _].
      rewrite Hmatrix in Hin.
      destruct (isReturned (outcome r)); simpl in Hin;
        [destruct Hin as [Heq|[]]; symmetry; exact Heq|contradiction].
    + exfalso. unfold r, createFragmentProcessor in Hin.
      rewrite (bind_returned _ _ _ _ _ _ Hsel) in Hin. rewrite Hp in Hin.
      unfold events, ret in Hin. simpl in Hin. rewrite app_nil_r in Hin.
      unfold events in Hnone. simpl in Hnone. rewrite Hnone in Hin. exact Hin.
  - exfalso. unfold r, createFragmentProcessor, bind in Hin. rewrite Hsel in Hin.
    unfold events in Hin, Hnone. simpl in Hin, Hnone. rewrite Hnone in Hin. exact Hin.
Qed.

(** The assertion of lines 164 and 165: in a build that checks assertions,
    a mode and a domain reach the assembly only if the mode is [kNoDomain] or
    the domain is sorted. *)
Lemma sampleAndAssemble_checks_domain
  (a : GrTextureAdjuster) (origTextureMatrix : SkMatrix)
  (constraintRect : SkRect SkScalar) (fc : FilterConstraint) (coordsLimited : bool)
  (filterOrNull : option Filter) (dst : option SkColorSpace)
  (domain : SkRect SkScalar) (p : GrTextureProxy) (sa : SkScalar * SkScalar)
  (w1 : World) (mode : DomainMode) (d : SkRect SkScalar) :
  SK_DEBUG = true ->
  In (mode, d)
    (assembledDomains
       (events (sampleAndAssemble a origTextureMatrix constraintRect fc coordsLimited
                  filterOrNull dst domain p sa w1))) ->
  mode = kNoDomain_DomainMode \/ domainIsSorted d = true.
Proof.
  intros Hdebug. run_assemble. rewrite Hdebug.
  split_tests; intros Hin; simpl in Hin;
    repeat (destruct Hin as [Hin|Hin]; [injection Hin as <- <-|]);
    try contradiction; try (left; reflexivity);
    try (right; match goal with
                | H : negb ?b = false |- ?b = true =>
                    destruct b; [reflexivity|discriminate H]
                end).
Qed.

(** The runs of [sampleAndAssemble] whose first call of the solver asks for
    a tight copy. *)
Lemma sampleAndAssemble_tight_copy
  (a : GrTextureAdjuster) (origTextureMatrix : SkMatrix)
  (constraintRect : SkRect SkScalar) (fc : FilterConstraint) (coordsLimited : bool)
  (filterOrNull : option Filter) (dst : option SkColorSpace)
  (domain : SkRect SkScalar) (p : GrTextureProxy) (sa : SkScalar * SkScalar)
  (w1 : World) :
  fst (DetermineDomainMode constraintRect fc coordsLimited p filterOrNull domain) =
    kTightCopy_DomainMode ->
  let r2 := sampleAndAssemble a origTextureMatrix constraintRect fc coordsLimited
              filterOrNull dst domain p sa w1 in
  let second :=
    DetermineDomainMode constraintRect fc coordsLimited p (Some kBilerp)
      (snd (DetermineDomainMode constraintRect fc coordsLimited p filterOrNull domain)) in
  (SK_DEBUG = true -> isMipMapFilter filterOrNull = false ->
   outcome r2 = AssertionFailed /\ solverFilters (events r2) = [filterOrNull] /\
   assembledModes (events r2) = []) /\
  (SK_DEBUG && negb (isMipMapFilter filterOrNull) = false ->
   solverFilters (events r2) = [filterOrNull; Some kBilerp]) /\
  (SK_DEBUG = true -> fst second = kTightCopy_DomainMode ->
   outcome r2 = AssertionFailed /\ assembledModes (events r2) = []) /\
  (SK_DEBUG = true -> isReturned (outcome r2) = true ->
   isMipMapFilter filterOrNull = true /\
   solverFilters (events r2) = [filterOrNull; Some kBilerp] /\
   exists mode : DomainMode,
     assembledModes (events r2) = [mode] /\
     (mode = kDomain_DomainMode \/ mode = kNoDomain_DomainMode)) /\
  (SK_DEBUG = false -> assembledModes (events r2) = [fst second]).
Proof.
  intros Hfirst. run_assemble.
  destruct (DetermineDomainMode constraintRect fc coordsLimited p filterOrNull domain)
    as [m1 d1].
  simpl in Hfirst. subst m1. simpl.
  destruct (DetermineDomainMode constraintRect fc coordsLimited p (Some kBilerp) d1)
    as [m2 d2].
  destruct SK_DEBUG eqn:Hdebug; destruct (isMipMapFilter filterOrNull) eqn:Hmip; simpl;
    destruct m2; simpl; destruct (domainIsSorted d2); simpl;
    repeat split; intros; try discriminate; try reflexivity;
    try (eexists; split; [reflexivity|]; auto; fail).
Qed.

(** C3, as amended.  Let the selection return a proxy and let the first call
    of the domain solver ask for a tight copy.  A build that checks
    assertions stops the run at the assertion of line 156 unless the filter
    of the request is the mip-map filter: for a bicubic request (a null
    filter) the solver is not called again.  Otherwise (mip-map filter, or a
    build without assertions) the solver is called exactly once more, with
    bilerp.  In a build that checks assertions a second tight copy stops the
    run, so a run that returns was a mip-map request, recomputed once, and
    handed [kDomain] or [kNoDomain] to the assembly; a build without
    assertions hands over the recomputed mode as it is. *)
Theorem tight_copy_is_retried_once_with_bilerp :
  forall (a : GrTextureAdjuster) (origTextureMatrix : SkMatrix)
         (constraintRect : SkRect SkScalar) (fc : FilterConstraint) (coordsLimited : bool)
         (filterOrNull : option Filter) (dst : option SkColorSpace)
         (domain : SkRect SkScalar) (cp : CopyParams) (w w1 : World)
         (sel : Selection) (p : GrTextureProxy) (e1 : list Event),
    refTextureProxyForParams a (samplerStateFor filterOrNull) None None
      (SK_Scalar1, SK_Scalar1) cp w = (Returned sel, w1, e1) ->
    selected sel = Some p ->
    fst (DetermineDomainMode constraintRect fc coordsLimited p filterOrNull domain) =
      kTightCopy_DomainMode ->
    let r := createFragmentProcessor a origTextureMatrix constraintRect fc coordsLimited
               filterOrNull dst domain cp w in
    let second :=
      DetermineDomainMode constraintRect fc coordsLimited p (Some kBilerp)
        (snd (DetermineDomainMode constraintRect fc coordsLimited p filterOrNull domain)) in
    (SK_DEBUG = true -> isMipMapFilter filterOrNull = false ->
     outcome r = AssertionFailed /\ solverFilters (events r) = [filterOrNull] /\
     assembledModes (events r) = []) /\
    (SK_DEBUG && negb (isMipMapFilter filterOrNull) = false ->
     solverFilters (events r) = [filterOrNull; Some kBilerp]) /\
    (SK_DEBUG = true -> fst second = kTightCopy_DomainMode ->
     outcome r = AssertionFailed /\ assembledModes (events r) = []) /\
    (SK_DEBUG = true -> isReturned (outcome r) = true ->
     isMipMapFilter filterOrNull = true /\
     downgradeTermination a origTextureMatrix constraintRect fc coordsLimited
       filterOrNull dst domain cp w) /\
    (SK_DEBUG = false -> assembledModes (events r) = [fst second]).
Proof.
  intros a m0 rect fc lim f dst dom cp w w1 sel p e1 Hsel Hp Hfirst r second.
  destruct (createFragmentProcessor_after_selection a m0 rect fc lim f dst dom cp
              w w1 sel p e1 Hsel Hp) as (Hrun & Hnof & Hnom & _ & _).
  destruct (sampleAndAssemble_tight_copy a m0 rect fc lim f dst dom p
              (outScaleAdjust sel) w1 Hfirst) as (H1 & H2 & H3 & H4 & H5).
  assert (Hout : outcome r =
            outcome (sampleAndAssemble a m0 rect fc lim f dst dom p (outScaleAdjust sel) w1)).
  { unfold r. rewrite Hrun. reflexivity. }
  assert (Hfilters : solverFilters (events r) =
            solverFilters (events (sampleAndAssemble a m0 rect fc lim f dst dom p
                                     (outScaleAdjust sel) w1))).
  { unfold r. rewrite Hrun. unfold events at 1. simpl.
    unfold solverFilters in *. rewrite flat_map_app, Hnof. reflexivity. }
  assert (Hmodes : assembledModes (events r) =
            assembledModes (events (sampleAndAssemble a m0 rect fc lim f dst dom p
                                      (outScaleAdjust sel) w1))).
  { unfold r. rewrite Hrun. unfold events at 1. simpl.
    unfold assembledModes in *. rewrite flat_map_app, Hnom. reflexivity. }
  unfold downgradeTermination. fold r.
  rewrite Hout, Hfilters, Hmodes.
  repeat split; try (apply H1; assumption); try (apply H2; assumption);
    try (apply H3; assumption); try (apply H4; assumption);
    try (apply H5; assumption).
Qed.

End Facade.

(** * The properties on the sample device *)

(** C5 on the sample device: an adjuster whose context was abandoned. *)
Lemma abandoned_context_selects_null_witness :
  fContext (sampleAdjuster true None 42) = None /\
  onRefTextureProxyForParams (sampleAdjuster true None 42) mipSampler None None true noScale
    sampleCopyParams (sampleWorld [] [Some sampleMippedCopy]) =
    (Returned (sampleSelection true None noScale), sampleWorld [] [Some sampleMippedCopy], []).
Proof.
  split; [reflexivity|].
  apply (abandoned_context_selects_null (C := sampleDevice true)). reflexivity.
Defined.

(** C7 on the sample device: a clamping sampler with nearest filtering. *)
Lemma no_copy_needed_selects_original_witness :
  copyNeeded sampleCaps debugAdjuster defaultSamplerState sampleCopyParams noScale = false /\
  selected
    (match outcome (onRefTextureProxyForParams debugAdjuster defaultSamplerState None None
                      false noScale sampleCopyParams (sampleWorld [] [])) with
     | Returned sel => sel
     | AssertionFailed => sampleSelection true None noScale
     end) = Some sampleOriginal.
Proof.
  split; [reflexivity|].
  rewrite (no_copy_needed_selects_original (C := sampleDevice true) debugAdjuster
             sampleContext defaultSamplerState None None false noScale sampleCopyParams
             (sampleWorld [] []));
    [reflexivity|reflexivity|intros _; reflexivity|reflexivity].
Defined.

(** C1 on the sample device: the mips ask for a copy and the engine fails;
    the original is selected. *)
Lemma failed_copy_falls_back_for_mips_only_witness :
  copyForMipsOnly sampleCaps debugAdjuster mipSampler sampleCopyParams noScale = true /\
  outcome (refTextureProxyCopy debugAdjuster sampleCopyParams true (sampleWorld [] [None])) =
    Returned None /\
  outcome (onRefTextureProxyForParams debugAdjuster mipSampler None None true noScale
             sampleCopyParams (sampleWorld [] [None])) =
    Returned (sampleSelection true (Some sampleOriginal) noScale).
Proof.
  split; [reflexivity|]. split; [reflexivity|].
  rewrite (failed_copy_falls_back_for_mips_only (C := sampleDevice true) debugAdjuster
             sampleContext mipSampler None None true noScale sampleCopyParams
             (sampleWorld [] [None]) (sampleWorld [] []) 
             [EvFindOrCreateProxyByUniqueKey (sampleKey true) kTopLeft_GrSurfaceOrigin;
              EvCopyOnGpu sampleOriginal sampleCopyParams true]);
    [reflexivity|reflexivity|intros _; reflexivity|reflexivity|reflexivity].
Defined.

(** The same request with a repeating sampler: the wrap mode asks for the
    copy, the engine fails, and null is selected. *)
Example failed_wrap_mode_copy_selects_null :
  copyForWrapMode sampleCaps debugAdjuster repeatSampler sampleCopyParams noScale = true /\
  selected
    (match outcome (onRefTextureProxyForParams debugAdjuster repeatSampler None None
                      false noScale sampleCopyParams (sampleWorld [] [None])) with
     | Returned sel => sel
     | AssertionFailed => sampleSelection true (Some sampleOriginal) noScale
     end) = None.
Proof.
  split; reflexivity.
Qed.

(** C9 on the sample device: an adjuster whose content identity is zero. *)
Lemma invalid_key_skips_cache_witness :
  fUniqueID (sampleAdjuster true (Some sampleContext) 0) = 0%N /\
  isValid (makeCopyKey (sampleAdjuster true (Some sampleContext) 0) sampleCopyParams) =
    false /\
  refTextureProxyCopy (sampleAdjuster true (Some sampleContext) 0) sampleCopyParams true
    (sampleWorld [] [Some sampleMippedCopy]) =
    (Returned (Some sampleMippedCopy), sampleWorld [] [],
     [EvCopyOnGpu sampleOriginal sampleCopyParams true]).
Proof.
  destruct (invalid_key_skips_cache (C := sampleDevice true)
              (sampleAdjuster true (Some sampleContext) 0) sampleCopyParams true
              (sampleWorld [] [Some sampleMippedCopy])) as [Hzero Hskip].
  split; [reflexivity|]. split; [exact (Hzero eq_refl)|].
  destruct (Hskip (Hzero eq_refl)) as (Hrun & _).
  rewrite Hrun. reflexivity.
Defined.

(** C4 on the sample device: the cache is empty and the engine answers with
    a mipped copy; the second resolve finds it. *)
Lemma resolve_hit_is_immediate_and_idempotent_witness :
  isValid (makeCopyKey debugAdjuster sampleCopyParams) = true /\
  outcome (refTextureProxyCopy debugAdjuster sampleCopyParams true
             (sampleWorld [] [Some sampleMippedCopy])) = Returned (Some sampleMippedCopy) /\
  idempotentResolve debugAdjuster sampleCopyParams true
    (sampleWorld [] [Some sampleMippedCopy]).
Proof.
  split; [reflexivity|]. split; [reflexivity|].
  destruct (resolve_hit_is_immediate_and_idempotent (C := sampleDevice true)
              debugAdjuster sampleCopyParams true
              (sampleWorld [] [Some sampleMippedCopy]) eq_refl) as [_ Hsecond].
  destruct (Hsecond sampleMippedCopy eq_refl eq_refl) as [Hidem _]. exact Hidem.
Defined.

(** The claim C4 as it is worded fails when the first copy fails: nothing is
    cached, so the second resolve finds nothing under the key and asks the
    engine again. *)
Lemma resolve_after_failed_copy_is_not_idempotent :
  isValid (makeCopyKey debugAdjuster sampleCopyParams) = true /\
  findByKey (makeCopyKey debugAdjuster sampleCopyParams)
    (keyed (world (refTextureProxyCopy debugAdjuster sampleCopyParams false
                     (sampleWorld [] [None; Some samplePlainCopy])))) = None /\
  gpuCopies
    (events (refTextureProxyCopy debugAdjuster sampleCopyParams false
               (sampleWorld [] [None; Some samplePlainCopy])) ++
     events (refTextureProxyCopy debugAdjuster sampleCopyParams false
               (world (refTextureProxyCopy debugAdjuster sampleCopyParams false
                         (sampleWorld [] [None; Some samplePlainCopy]))))) = 2%nat /\
  ~ idempotentResolve debugAdjuster sampleCopyParams false
      (sampleWorld [] [None; Some samplePlainCopy]).
Proof.
  split; [reflexivity|]. split; [reflexivity|]. split; [reflexivity|].
  intros [_ [cc [Hfind _]]]. vm_compute in Hfind. discriminate Hfind.
Qed.

(** C2 on the sample device: a plain copy is cached under the key and the
    engine answers with a mipped copy. *)
Lemma mip_upgrade_supersedes_old_entry_witness :
  findByKey (sampleKey true) [(sampleKey true, samplePlainCopy)] = Some samplePlainCopy /\
  supersededBy debugAdjuster sampleCopyParams samplePlainCopy sampleMippedCopy
    (sampleWorld [(sampleKey true, samplePlainCopy)] [Some sampleMippedCopy]).
Proof.
  split; [reflexivity|].
  destruct (mip_upgrade_supersedes_old_entry (C := sampleDevice true) debugAdjuster
              sampleCopyParams samplePlainCopy
              (sampleWorld [(sampleKey true, samplePlainCopy)] [Some sampleMippedCopy])
              eq_refl eq_refl eq_refl eq_refl) as (_ & Hcopied & _).
  destruct (Hcopied sampleMippedCopy [] eq_refl eq_refl (fun _ => eq_refl))
    as [Hsuper _].
  exact Hsuper.
Defined.

(** The claim C2 as it is worded fails when the copy engine fails: no copy
    is made, null is returned and the key still finds the old entry. *)
Lemma mip_upgrade_fails_with_the_copy :
  findByKey (sampleKey true) [(sampleKey true, samplePlainCopy)] = Some samplePlainCopy /\
  mipMapped samplePlainCopy = kNo /\
  refTextureProxyCopy debugAdjuster sampleCopyParams true
    (sampleWorld [(sampleKey true, samplePlainCopy)] [None]) =
    (Returned None, sampleWorld [(sampleKey true, samplePlainCopy)] [],
     [EvFindOrCreateProxyByUniqueKey (sampleKey true) kTopLeft_GrSurfaceOrigin;
      EvCopyOnGpu sampleOriginal sampleCopyParams true]) /\
  ~ mipUpgrade debugAdjuster sampleCopyParams samplePlainCopy
      (sampleWorld [(sampleKey true, samplePlainCopy)] [None]).
Proof.
  split; [reflexivity|]. split; [reflexivity|]. split; [reflexivity|].
  intros [new [Hout _]]. vm_compute in Hout. discriminate Hout.
Qed.

(** C10 on the sample device: the context was abandoned, the selection is
    null and so is the processor. *)
Lemma null_selection_gives_null_processor_witness :
  refTextureProxyForParams (sampleAdjuster true None 42) (samplerStateFor (Some kBilerp))
    None None noScale sampleCopyParams (sampleWorld [] []) =
    (Returned (sampleSelection true None noScale), sampleWorld [] [], []) /\
  createFragmentProcessor (sampleAdjuster true None 42) noScale innerRect kYes_FilterConstraint
    false (Some kBilerp) None garbageRect sampleCopyParams (sampleWorld [] []) =
    (Returned None, sampleWorld [] [], []).
Proof.
  split; [reflexivity|].
  apply (null_selection_gives_null_processor (C := sampleDevice true)
           (sampleAdjuster true None 42) noScale innerRect kYes_FilterConstraint false
           (Some kBilerp) None garbageRect sampleCopyParams (sampleWorld [] [])
           (sampleWorld [] []) (sampleSelection true None noScale) []);
    reflexivity.
Defined.

(** C8 on the sample device: a copy is selected and the matrix is scaled. *)
Lemma texture_matrix_scaled_for_copies_only_witness :
  refTextureProxyForParams debugAdjuster (samplerStateFor (Some kMipMap)) None None noScale
    sampleCopyParams mipRequestWorld =
    (Returned (sampleSelection true (Some sampleMippedCopy) noScale), mipRequestSelected,
     mipRequestEvents) /\
  assembledMatrices
    (events (createFragmentProcessor debugAdjuster (2 # 1, 3 # 1)%Q innerRect
               kYes_FilterConstraint false (Some kMipMap) None garbageRect sampleCopyParams
               mipRequestWorld)) =
    [@postScale (sampleDevice true) 1%Q 1%Q (2 # 1, 3 # 1)%Q].
Proof.
  split; [reflexivity|].
  destruct (texture_matrix_scaled_for_copies_only (C := sampleDevice true) debugAdjuster
              (2 # 1, 3 # 1)%Q innerRect kYes_FilterConstraint false (Some kMipMap) None
              garbageRect sampleCopyParams mipRequestWorld) as [_ Hhanded].
  destruct (Hhanded (sampleSelection true (Some sampleMippedCopy) noScale)
              sampleMippedCopy eq_refl eq_refl) as [Hmatrix _].
  rewrite Hmatrix. reflexivity.
Defined.

(** When the original is selected the matrix of the request is handed over
    as it is. *)
Example texture_matrix_kept_for_the_original :
  assembledMatrices
    (events (createFragmentProcessor debugAdjuster (2 # 1, 3 # 1)%Q innerRect
               kYes_FilterConstraint false (Some kBilerp) None garbageRect sampleCopyParams
               (sampleWorld [] []))) = [(2 # 1, 3 # 1)%Q].
Proof.
  reflexivity.
Qed.

(** C3 on the sample device: a mip-map request under a strict constraint.
    The solver asks for a tight copy, is called again with bilerp and
    answers [kDomain]. *)
Lemma tight_copy_is_retried_once_with_bilerp_witness :
  fst (@DetermineDomainMode (sampleDevice true) edgeRect kYes_FilterConstraint false
         sampleMippedCopy (Some kMipMap) garbageRect) = kTightCopy_DomainMode /\
  downgradeTermination debugAdjuster noScale edgeRect kYes_FilterConstraint false
    (Some kMipMap) None garbageRect sampleCopyParams mipRequestWorld.
Proof.
  split; [reflexivity|].
  destruct (tight_copy_is_retried_once_with_bilerp (C := sampleDevice true) debugAdjuster
              noScale edgeRect kYes_FilterConstraint false (Some kMipMap) None
              garbageRect sampleCopyParams mipRequestWorld mipRequestSelected
              (sampleSelection true (Some sampleMippedCopy) noScale) sampleMippedCopy
              mipRequestEvents eq_refl eq_refl eq_refl) as (_ & _ & _ & Hreturned & _).
  destruct (Hreturned eq_refl eq_refl) as [_ Hdown]. exact Hdown.
Defined.

(** The claim C3 as it is worded fails for a bicubic request (a null filter)
    in a build that checks assertions.  The constraint touches the edge of
    the texture, the solver asks for a tight copy, and the assertion of line
    156 stops the run: the solver is not called a second time and nothing is
    handed to the assembly. *)
Lemma bicubic_tight_copy_is_not_retried :
  fst (@DetermineDomainMode (sampleDevice true) edgeRect kYes_FilterConstraint false
         sampleOriginal None garbageRect) = kTightCopy_DomainMode /\
  createFragmentProcessor debugAdjuster noScale edgeRect kYes_FilterConstraint false None
    None garbageRect sampleCopyParams (sampleWorld [] []) =
    (AssertionFailed, sampleWorld [] [],
     [EvIsACopyNeededForMips sampleOriginal kNearest;
      @EvDetermineDomainMode (sampleDevice true) edgeRect kYes_FilterConstraint false
        sampleOriginal None]) /\
  ~ downgradeTermination debugAdjuster noScale edgeRect kYes_FilterConstraint false None
      None garbageRect sampleCopyParams (sampleWorld [] []).
Proof.
  split; [reflexivity|]. split; [reflexivity|].
  intros [Hfilters _]. vm_compute in Hfilters. discriminate Hfilters.
Qed.

(** * Further properties of the copy cache gateway *)

(** Case analysis on a test of the goal that holds no other test. *)
Ltac holds_no_test t :=
  lazymatch t with
  | context [match _ with _ => _ end] => fail
  | _ => idtac
  end.

Ltac break_match :=
  match goal with
  | |- context [match ?scrutinee with _ => _ end] =>
      holds_no_test scrutinee; destruct scrutinee eqn:?
  end.

Section GatewayFurther.

Context {C : Collaborators}.

Ltac run_resolve :=
  unfold refTextureProxyCopy, copyAndRegister, bind, findOrCreateProxyByUniqueKey,
    CopyOnGpu, SkASSERT, removeUniqueKeyFromProxy, assignUniqueKeyToProxy,
    isRecordingDDL, getContextUniqueID, didCacheCopy, ret, originalProxyRef,
    originalProxy, outcome, world, events, keyed, setKeyed.

Lemma findByKey_None_entries (k : GrUniqueKey) (c : list (GrUniqueKey * GrTextureProxy)) :
  findByKey k c = None -> entriesUnder k c = 0%nat.
Proof.
  unfold entriesUnder. induction c as [|[k' p] c IH]; simpl; [reflexivity|].
  destruct (GrUniqueKey_eqb k k'); [discriminate|exact IH].
Qed.

Lemma findByKey_Some_entries (k : GrUniqueKey) (c : list (GrUniqueKey * GrTextureProxy))
  (p : GrTextureProxy) :
  findByKey k c = Some p -> (1 <= entriesUnder k c)%nat.
Proof.
  unfold entriesUnder. induction c as [|[k' q] c IH]; simpl; [discriminate|].
  destruct (GrUniqueKey_eqb k k'); simpl; [lia|exact IH].
Qed.

Lemma entriesUnder_removeKey_le (k k' : GrUniqueKey) (p : GrTextureProxy)
  (c : list (GrUniqueKey * GrTextureProxy)) :
  (entriesUnder k (removeKey k' p c) <= entriesUnder k c)%nat.
Proof.
  unfold entriesUnder, removeKey. induction c as [|[k2 q] c IH]; simpl; [lia|].
  destruct (negb (GrUniqueKey_eqb k' k2 && samePointer p q)); simpl;
    destruct (GrUniqueKey_eqb k k2); simpl; lia.
Qed.

Lemma entriesUnder_assignKey (k k' : GrUniqueKey) (p : GrTextureProxy)
  (c : list (GrUniqueKey * GrTextureProxy)) :
  entriesUnder k (assignKey k' p c) =
    ((if GrUniqueKey_eqb k k' then 1 else 0) + entriesUnder k c)%nat.
Proof.
  unfold entriesUnder, assignKey. simpl.
  destruct (GrUniqueKey_eqb k k'); reflexivity.
Qed.

Lemma findByKey_removeKey_other (k k0 : GrUniqueKey) (cc : GrTextureProxy)
  (c : list (GrUniqueKey * GrTextureProxy)) :
  GrUniqueKey_eqb k k0 = false ->
  findByKey k (removeKey k0 cc c) = findByKey k c.
Proof.
  intros Hk. unfold removeKey. induction c as [|[k' q] c IH]; simpl; [reflexivity|].
  destruct (GrUniqueKey_eqb k k') eqn:Hkk.
  - assert (Hne : GrUniqueKey_eqb k0 k' = false).
    { destruct (GrUniqueKey_eqb k0 k') eqn:Hmk; [|reflexivity].
      apply GrUniqueKey_eqb_eq in Hmk. apply GrUniqueKey_eqb_eq in Hkk. subst.
      rewrite GrUniqueKey_eqb_refl in Hk. discriminate Hk. }
    rewrite Hne. simpl. rewrite Hkk. reflexivity.
  - destruct (negb _); simpl; [rewrite Hkk|]; exact IH.
Qed.

(** What a resolve leaves in the cache: what was there, or the answer of the
    engine under the key in place of what the key found. *)
Lemma refTextureProxyCopy_keyed (a : GrTextureAdjuster) (cp : CopyParams) (wbm : bool)
  (w : World) :
  keyed (world (refTextureProxyCopy a cp wbm w)) = keyed w \/
  exists c : GrTextureProxy,
    isValid (makeCopyKey a cp) = true /\
    hd None (gpuScript w) = Some c /\
    outcome (refTextureProxyCopy a cp wbm w) = Returned (Some c) /\
    keyed (world (refTextureProxyCopy a cp wbm w)) =
      assignKey (makeCopyKey a cp) c
        (match findByKey (makeCopyKey a cp) (keyed w) with
         | Some cc => removeKey (makeCopyKey a cp) cc (keyed w)
         | None => keyed w
         end).
Proof.
  run_resolve.
  repeat (simpl; break_match); simpl;
    try (left; reflexivity);
    right; eexists; repeat split; reflexivity.
Qed.

(** X1.  A resolve looks the key up at most once and asks the copy engine at
    most once, whatever the arguments and the state: a failed copy is not
    tried again. *)
Theorem resolve_asks_the_engine_at_most_once :
  forall (a : GrTextureAdjuster) (cp : CopyParams) (wantMips : bool) (w : World),
    (gpuCopies (events (refTextureProxyCopy a cp wantMips w)) <= 1)%nat /\
    (length (filter isCacheLookup (events (refTextureProxyCopy a cp wantMips w))) <= 1)%nat /\
    (gpuScript (world (refTextureProxyCopy a cp wantMips w)) = gpuScript w \/
     gpuScript (world (refTextureProxyCopy a cp wantMips w)) = tl (gpuScript w)).
Proof.
  intros a cp wantMips w. unfold gpuCopies. run_resolve.
  repeat (simpl; break_match); simpl; repeat split; try lia; auto.
Qed.

(** X2.  What a resolve returns is the entry the valid key found, when that
    entry satisfies [wantMips] (and then nothing else was done), or else the
    answer of the copy engine to the one call made.  So a resolve returns
    null only when the engine failed, and then the cache is as it was and
    nothing was registered. *)
Theorem resolve_returns_hit_or_engine_answer :
  forall (a : GrTextureAdjuster) (cp : CopyParams) (wantMips : bool) (w : World)
         (res : option GrTextureProxy),
    outcome (refTextureProxyCopy a cp wantMips w) = Returned res ->
    ((exists cc : GrTextureProxy,
        res = Some cc /\ isValid (makeCopyKey a cp) = true /\
        findByKey (makeCopyKey a cp) (keyed w) = Some cc /\
        satisfies wantMips cc = true /\
        world (refTextureProxyCopy a cp wantMips w) = w /\
        gpuCopies (events (refTextureProxyCopy a cp wantMips w)) = 0%nat) \/
     (res = hd None (gpuScript w) /\
      gpuCopies (events (refTextureProxyCopy a cp wantMips w)) = 1%nat)) /\
    (res = None ->
     hd None (gpuScript w) = None /\
     keyed (world (refTextureProxyCopy a cp wantMips w)) = keyed w /\
     filter isRegistration (events (refTextureProxyCopy a cp wantMips w)) = []).
Proof.
  intros a cp wantMips w res. unfold gpuCopies, satisfies. run_resolve.
  repeat (simpl; break_match); simpl; intros Hres;
    try discriminate Hres; injection Hres as <-;
    (split;
     [ first [ right; split; reflexivity
             | left; eexists; repeat split; try reflexivity; assumption ]
     | intros Hnull; try discriminate Hnull; repeat split; reflexivity ]).
Qed.

(** X3.  A resolve keeps the cache well formed: if no key had two entries
    before, no key has two entries after, whether the run returns or is
    stopped by an assertion.  And it touches only its own key: the entries
    under any other key are the same before and after. *)
Theorem resolve_keeps_keys_unique :
  forall (a : GrTextureAdjuster) (cp : CopyParams) (wantMips : bool) (w : World),
    (uniqueKeys (keyed w) ->
     uniqueKeys (keyed (world (refTextureProxyCopy a cp wantMips w)))) /\
    (forall e : GrUniqueKey * GrTextureProxy,
       GrUniqueKey_eqb (makeCopyKey a cp) (fst e) = false ->
       (In e (keyed (world (refTextureProxyCopy a cp wantMips w))) <-> In e (keyed w))).
Proof.
  intros a cp wantMips w.
  destruct (refTextureProxyCopy_keyed a cp wantMips w)
    as [Hsame|(c & Hvalid & Hanswer & Hout & Hkeyed)].
  - rewrite Hsame. split; [auto|reflexivity].
  - rewrite Hkeyed. split.
    + intros Huniq k. rewrite entriesUnder_assignKey.
      destruct (GrUniqueKey_eqb k (makeCopyKey a cp)) eqn:Hk; simpl.
      * apply GrUniqueKey_eqb_eq in Hk. subst k.
        destruct (findByKey (makeCopyKey a cp) (keyed w)) as [cc|] eqn:Hfind.
        -- pose proof (findByKey_Some_entries _ _ _ Hfind) as Hge.
           pose proof (Huniq (makeCopyKey a cp)) as Hle.
           assert (Hone : entriesUnder (makeCopyKey a cp) (keyed w) = 1%nat) by lia.
           rewrite (removeKey_found_single _ _ _ Hfind Hone). lia.
        -- rewrite (findByKey_None_entries _ _ Hfind). lia.
      * destruct (findByKey (makeCopyKey a cp) (keyed w)) as [cc|].
        -- pose proof (entriesUnder_removeKey_le k (makeCopyKey a cp) cc (keyed w)).
           pose proof (Huniq k). lia.
        -- apply Huniq.
    + intros [k p] Hk. simpl in Hk. unfold assignKey. simpl. split.
      * intros [Heq|Hin].
        -- injection Heq as <- <-. rewrite GrUniqueKey_eqb_refl in Hk. discriminate Hk.
        -- destruct (findByKey (makeCopyKey a cp) (keyed w)); [|exact Hin].
           unfold removeKey in Hin. apply filter_In in Hin. apply Hin.
      * intros Hin. right.
        destruct (findByKey (makeCopyKey a cp) (keyed w)); [|exact Hin].
        apply removeKey_keeps_other_keys; assumption.
Qed.

(** X4.  Whatever proxy a resolve with a valid key returns is the proxy the
    key finds in the cache afterwards, also when it lacks the mips that were
    asked for. *)
Theorem resolved_proxy_is_found_under_its_key :
  forall (a : GrTextureAdjuster) (cp : CopyParams) (wantMips : bool) (w : World)
         (p : GrTextureProxy),
    isValid (makeCopyKey a cp) = true ->
    outcome (refTextureProxyCopy a cp wantMips w) = Returned (Some p) ->
    findByKey (makeCopyKey a cp) (keyed (world (refTextureProxyCopy a cp wantMips w))) =
      Some p.
Proof.
  intros a cp wantMips w p Hvalid Hout.
  destruct (refTextureProxyCopy a cp wantMips w) as [[o w1] e1] eqn:Hrun.
  unfold outcome in Hout. simpl in Hout. subst o.
  destruct (refTextureProxyCopy_registers a cp wantMips w w1 p e1 Hvalid Hrun) as [Hfind _].
  exact Hfind.
Qed.

(** X5.  A key that finds an entry before a resolve finds one after it: the
    key is detached from a cached copy only when a new copy is attached in
    the same run, also when an assertion stops the run. *)
Theorem resolve_never_drops_a_key :
  forall (a : GrTextureAdjuster) (cp : CopyParams) (wantMips : bool) (w : World)
         (k : GrUniqueKey) (old : GrTextureProxy),
    findByKey k (keyed w) = Some old ->
    exists p : GrTextureProxy,
      findByKey k (keyed (world (refTextureProxyCopy a cp wantMips w))) = Some p.
Proof.
  intros a cp wantMips w k old Hfind.
  destruct (refTextureProxyCopy_keyed a cp wantMips w)
    as [Hsame|(c & Hvalid & Hanswer & Hout & Hkeyed)].
  - rewrite Hsame. exists old. exact Hfind.
  - rewrite Hkeyed. unfold assignKey. simpl.
    destruct (GrUniqueKey_eqb k (makeCopyKey a cp)) eqn:Hk; [exists c; reflexivity|].
    destruct (findByKey (makeCopyKey a cp) (keyed w)) as [cc|];
      [|exists old; exact Hfind].
    exists old. rewrite findByKey_removeKey_other; assumption.
Qed.

(** X6.  Whether the provider is recording a DDL makes no difference to a
    resolve: [didCacheCopy] does nothing, so the outcome, the calls made, the
    keyed proxies and the engine are the same in both cases. *)
Theorem resolve_ignores_ddl_recording :
  forall (a : GrTextureAdjuster) (cp : CopyParams) (wantMips : bool) (w : World)
         (b : bool),
    refTextureProxyCopy a cp wantMips (withRecordingDDL b w) =
      (outcome (refTextureProxyCopy a cp wantMips w),
       withRecordingDDL b (world (refTextureProxyCopy a cp wantMips w)),
       events (refTextureProxyCopy a cp wantMips w)).
Proof.
  intros a cp wantMips w b. unfold withRecordingDDL. run_resolve.
  repeat (simpl; break_match); simpl; try reflexivity; try congruence.
Qed.

(** X7.  A resolve detaches the key from a cached copy only if mips were
    asked for and that copy, the one the key found, has none; and it then
    attaches the key to the returned copy in the same run.  In a build that
    checks assertions the new copy is mipped and has the origin of the
    original. *)
Theorem resolve_replaces_only_unmipped_copies :
  forall (a : GrTextureAdjuster) (cp : CopyParams) (wantMips : bool) (w : World)
         (k : GrUniqueKey) (cc : GrTextureProxy),
    In (EvRemoveUniqueKeyFromProxy k cc) (events (refTextureProxyCopy a cp wantMips w)) ->
    wantMips = true /\ mipMapped cc = kNo /\ k = makeCopyKey a cp /\
    findByKey (makeCopyKey a cp) (keyed w) = Some cc /\
    exists p : GrTextureProxy,
      outcome (refTextureProxyCopy a cp wantMips w) = Returned (Some p) /\
      In (EvAssignUniqueKeyToProxy (makeCopyKey a cp) p)
        (events (refTextureProxyCopy a cp wantMips w)) /\
      (SK_DEBUG = true ->
       mipMapped p = kYes /\ origin p = origin (fOriginal a)).
Proof.
  intros a cp wantMips w k cc. run_resolve. unfold satisfies.
  destruct wantMips; destruct SK_DEBUG eqn:Hdebug;
    repeat (simpl; break_match); simpl; intros Hin;
    repeat (destruct Hin as [Hin|Hin]; try discriminate Hin);
    try contradiction;
    injection Hin as <- <-;
    (split; [reflexivity|]); (split; [first [assumption|reflexivity]|]);
    (split; [reflexivity|]); (split; [first [assumption|reflexivity]|]);
    eexists; (split; [reflexivity|]); (split; [simpl; auto 10|]);
    intros Hd; try discriminate Hd; split;
    match goal with
    | |- origin ?c = origin ?o =>
        destruct (origin c), (origin o); simpl in *; try reflexivity; discriminate
    | _ => first [assumption|reflexivity]
    end.
Qed.

(** A resolve is stopped by an assertion in a build that checks assertions
    only. *)
Lemma refTextureProxyCopy_stopped (a : GrTextureAdjuster) (cp : CopyParams) (wbm : bool)
  (w : World) :
  outcome (refTextureProxyCopy a cp wbm w) = AssertionFailed -> SK_DEBUG = true.
Proof.
  run_resolve. destruct SK_DEBUG; [reflexivity|].
  repeat (simpl; break_match); simpl; intros Hstop; discriminate Hstop.
Qed.

(** X8.  The copy key is built from the content identity and the size of the
    original only: neither the colour space, nor the alpha type, nor the
    context of the adjuster enters it.  So two adjusters of the same content
    that hold the same live context, the one whose provider is the provider
    of the state (line 40 takes the provider from [fContext]), share their
    copies whatever their colour space and alpha type: when a resolve of one
    returned a proxy that satisfies [wantMips], the same resolve of the
    other on the resulting state is a cache hit that returns this proxy and
    asks for no GPU copy. *)
Theorem adjusters_of_one_content_share_copies :
  forall (a b : GrTextureAdjuster) (cp : CopyParams) (wantMips : bool) (w : World)
         (p : GrTextureProxy),
    fUniqueID a = fUniqueID b ->
    width (fOriginal a) = width (fOriginal b) ->
    height (fOriginal a) = height (fOriginal b) ->
    makeCopyKey b cp = makeCopyKey a cp /\
    (forall ctx : GrContext,
       fContext a = Some ctx ->
       fContext b = Some ctx ->
       isValid (makeCopyKey a cp) = true ->
       outcome (refTextureProxyCopy a cp wantMips w) = Returned (Some p) ->
       satisfies wantMips p = true ->
       refTextureProxyCopy b cp wantMips (world (refTextureProxyCopy a cp wantMips w)) =
         (Returned (Some p), world (refTextureProxyCopy a cp wantMips w),
          [EvFindOrCreateProxyByUniqueKey (makeCopyKey b cp) (origin (fOriginal b))])).
Proof.
  intros a b cp wantMips w p Hid Hwidth Hheight.
  assert (Hkey : makeCopyKey b cp = makeCopyKey a cp).
  { unfold makeCopyKey. rewrite Hid, Hwidth, Hheight. reflexivity. }
  split; [exact Hkey|].
  intros ctx Hlive_a Hlive_b Hvalid Hout Hsat.
  destruct (refTextureProxyCopy a cp wantMips w) as [[o w1] e1] eqn:Hrun.
  unfold outcome in Hout. simpl in Hout. subst o.
  destruct (refTextureProxyCopy_registers a cp wantMips w w1 p e1 Hvalid Hrun) as [Hfind _].
  unfold world. simpl.
  apply refTextureProxyCopy_hit; rewrite ?Hkey; assumption.
Qed.

End GatewayFurther.

(** * Further properties of the selection *)

Section SelectionFurther.

Context {C : Collaborators}.

Lemma copyOrFallBack_run (a : GrTextureAdjuster) (cp : CopyParams) (wbm mipsOnly : bool)
  (w : World) :
  copyOrFallBack a cp wbm mipsOnly w =
    (match outcome (refTextureProxyCopy a cp wbm w) with
     | Returned None => Returned (if mipsOnly then Some (fOriginal a) else None)
     | o => o
     end,
     world (refTextureProxyCopy a cp wbm w), events (refTextureProxyCopy a cp wbm w)).
Proof.
  unfold copyOrFallBack, bind, outcome, world, events, originalProxyRef.
  destruct (refTextureProxyCopy a cp wbm w) as [[[[p|]|] w1] e1]; simpl;
    try destruct mipsOnly; simpl; rewrite ?app_nil_r; reflexivity.
Qed.

(** A run of the selection on a live context whose size assertion passes:
    the analysis, and then the original or one call of [copyOrFallBack]. *)
Lemma onRefTextureProxyForParams_live (a : GrTextureAdjuster) (ctx : GrContext)
  (params : GrSamplerState) (dst : option SkColorSpace)
  (tex : option (option SkColorSpace)) (wbm : bool) (sa : SkScalar * SkScalar)
  (cp : CopyParams) (w : World) :
  fContext a = Some ctx ->
  passes (fitsMaxTextureSize a ctx) ->
  onRefTextureProxyForParams a params dst tex wbm sa cp w =
    if copyNeeded (caps ctx) a params cp sa then
      (match outcome (copyOrFallBack a (analysedCopyParams (caps ctx) a params cp sa) wbm
                        (copyForMipsOnly (caps ctx) a params cp sa) w) with
       | Returned res => Returned (selectionOf (caps ctx) a params tex cp sa res)
       | AssertionFailed => AssertionFailed
       end,
       world (copyOrFallBack a (analysedCopyParams (caps ctx) a params cp sa) wbm
                (copyForMipsOnly (caps ctx) a params cp sa) w),
       analysisEvents (caps ctx) a params cp sa ++
       events (copyOrFallBack a (analysedCopyParams (caps ctx) a params cp sa) wbm
                 (copyForMipsOnly (caps ctx) a params cp sa) w))
    else
      (Returned (selectionOf (caps ctx) a params tex cp sa (Some (fOriginal a))), w,
       analysisEvents (caps ctx) a params cp sa).
Proof.
  intros Hctx Hsize.
  unfold onRefTextureProxyForParams. rewrite Hctx.
  unfold bind at 1. rewrite (SkASSERT_passes _ _ Hsize).
  unfold copyNeeded, copyForMipsOnly, analysedCopyParams, analysisEvents, selectionOf,
    analysedScaleAdjust, copyForWrapMode, mipAnalysis, repeatAnalysis, originalProxyRef.
  unfold callIsACopyNeededForRepeatWrapMode, callIsACopyNeededForMips.
  destruct (isRepeated params); unfold bind, emit, ret, outcome, world, events; simpl.
  - destruct (IsACopyNeededForRepeatWrapMode _ _ _ _ _ _ _) as [[b cp'] sa'].
    destruct b; simpl.
    + destruct (copyOrFallBack a cp' wbm false w) as [[[res|] w1] e1]; simpl;
        rewrite ?app_nil_r; reflexivity.
    + destruct (IsACopyNeededForMips _ _ _ _) as [b2 cp2].
      destruct b2; simpl; [|reflexivity].
      destruct (copyOrFallBack a cp2 wbm true w) as [[[res|] w1] e1]; simpl;
        rewrite ?app_nil_r; reflexivity.
  - destruct (IsACopyNeededForMips _ _ _ _) as [b2 cp2].
    destruct b2; simpl; [|reflexivity].
    destruct (copyOrFallBack a cp2 wbm true w) as [[[res|] w1] e1]; simpl;
      rewrite ?app_nil_r; reflexivity.
Qed.

Lemma onRefTextureProxyForParams_oversize (a : GrTextureAdjuster) (ctx : GrContext)
  (params : GrSamplerState) (dst : option SkColorSpace)
  (tex : option (option SkColorSpace)) (wbm : bool) (sa : SkScalar * SkScalar)
  (cp : CopyParams) (w : World) :
  fContext a = Some ctx ->
  SK_DEBUG = true ->
  fitsMaxTextureSize a ctx = false ->
  onRefTextureProxyForParams a params dst tex wbm sa cp w = (AssertionFailed, w, []).
Proof.
  intros Hctx Hdebug Hsize.
  unfold onRefTextureProxyForParams. rewrite Hctx.
  unfold bind at 1. unfold fitsMaxTextureSize in Hsize.
  rewrite (SkASSERT_fails _ _ Hdebug Hsize). reflexivity.
Qed.

Lemma passes_or_fails (cond : bool) :
  passes cond \/ (SK_DEBUG = true /\ cond = false).
Proof.
  unfold passes. destruct SK_DEBUG, cond; auto; left; intros H; discriminate H.
Qed.

Lemma analysisEvents_hold_no_copy (cps : GrCaps) (a : GrTextureAdjuster)
  (params : GrSamplerState) (cp : CopyParams) (sa : SkScalar * SkScalar) :
  gpuCopies (analysisEvents cps a params cp sa) = 0%nat.
Proof.
  unfold gpuCopies, analysisEvents.
  destruct (isRepeated params), (copyForWrapMode cps a params cp sa); reflexivity.
Qed.

Lemma refTextureProxyCopy_copies (a : GrTextureAdjuster) (cp : CopyParams) (wbm : bool)
  (w : World) :
  (gpuCopies (events (refTextureProxyCopy a cp wbm w)) <= 1)%nat.
Proof.
  unfold gpuCopies.
  unfold refTextureProxyCopy, copyAndRegister, bind, findOrCreateProxyByUniqueKey,
    CopyOnGpu, SkASSERT, removeUniqueKeyFromProxy, assignUniqueKeyToProxy,
    isRecordingDDL, getContextUniqueID, didCacheCopy, ret, events.
  repeat (simpl; break_match); simpl; lia.
Qed.

(** X9.  On a live context, a selection that needs a copy is the analysis
    followed by exactly one resolve, with the parameters the analysis chose:
    the state it leaves and the calls it logs after the analysis are those
    of that resolve, a proxy the resolve returns is returned as it is, and an
    assertion that stops the resolve stops the selection. *)
Theorem selection_is_analysis_then_one_resolve :
  forall (a : GrTextureAdjuster) (ctx : GrContext) (params : GrSamplerState)
         (dst : option SkColorSpace) (tex : option (option SkColorSpace))
         (willBeMipped : bool) (sa : SkScalar * SkScalar) (cp : CopyParams) (w : World),
    fContext a = Some ctx ->
    passes (fitsMaxTextureSize a ctx) ->
    copyNeeded (caps ctx) a params cp sa = true ->
    world (onRefTextureProxyForParams a params dst tex willBeMipped sa cp w) =
      world (refTextureProxyCopy a (analysedCopyParams (caps ctx) a params cp sa)
               willBeMipped w) /\
    events (onRefTextureProxyForParams a params dst tex willBeMipped sa cp w) =
      analysisEvents (caps ctx) a params cp sa ++
      events (refTextureProxyCopy a (analysedCopyParams (caps ctx) a params cp sa)
                willBeMipped w) /\
    outcome (onRefTextureProxyForParams a params dst tex willBeMipped sa cp w) =
      match outcome (refTextureProxyCopy a (analysedCopyParams (caps ctx) a params cp sa)
                       willBeMipped w) with
      | Returned (Some p) => Returned (selectionOf (caps ctx) a params tex cp sa (Some p))
      | Returned None =>
          Returned (selectionOf (caps ctx) a params tex cp sa
                      (if copyForMipsOnly (caps ctx) a params cp sa
                       then Some (fOriginal a) else None))
      | AssertionFailed => AssertionFailed
      end.
Proof.
  intros a ctx params dst tex willBeMipped sa cp w Hctx Hsize Hneed.
  rewrite (onRefTextureProxyForParams_live a ctx params dst tex willBeMipped sa cp w
             Hctx Hsize).
  rewrite Hneed. rewrite copyOrFallBack_run.
  unfold outcome, world, events. simpl.
  destruct (refTextureProxyCopy a (analysedCopyParams (caps ctx) a params cp sa)
              willBeMipped w) as [[[[p|]|] w1] e1]; simpl; repeat split; reflexivity.
Qed.

Lemma onRefTextureProxyForParams_copies (a : GrTextureAdjuster) (params : GrSamplerState)
  (dst : option SkColorSpace) (tex : option (option SkColorSpace))
  (willBeMipped : bool) (sa : SkScalar * SkScalar) (cp : CopyParams) (w : World) :
  (gpuCopies (events (onRefTextureProxyForParams a params dst tex willBeMipped sa cp w))
   <= 1)%nat.
Proof.
  destruct (fContext a) as [ctx|] eqn:Hctx.
  - destruct (passes_or_fails (fitsMaxTextureSize a ctx)) as [Hsize|[Hdebug Hsize]].
    + rewrite (onRefTextureProxyForParams_live a ctx params dst tex willBeMipped sa cp w
                 Hctx Hsize).
      pose proof (analysisEvents_hold_no_copy (caps ctx) a params cp sa) as Hzero.
      destruct (copyNeeded (caps ctx) a params cp sa).
      * rewrite copyOrFallBack_run. unfold events at 1. simpl.
        pose proof (refTextureProxyCopy_copies a
                      (analysedCopyParams (caps ctx) a params cp sa) willBeMipped w).
        unfold gpuCopies in *. rewrite filter_app, length_app. lia.
      * unfold events. simpl. lia.
    + rewrite (onRefTextureProxyForParams_oversize a ctx params dst tex willBeMipped sa
                 cp w Hctx Hdebug Hsize).
      unfold gpuCopies, events. simpl. lia.
  - unfold onRefTextureProxyForParams. rewrite Hctx.
    unfold gpuCopies, events, ret. simpl. lia.
Qed.

(** X10.  A selection asks the copy engine at most once, whatever the
    arguments and the state: when the wrap mode and the mips both ask for a
    copy, one copy is made for both. *)
Theorem selection_issues_at_most_one_copy :
  forall (a : GrTextureAdjuster) (params : GrSamplerState)
         (dst : option SkColorSpace) (tex : option (option SkColorSpace))
         (willBeMipped : bool) (sa : SkScalar * SkScalar) (cp : CopyParams) (w : World),
    (gpuCopies (events (onRefTextureProxyForParams a params dst tex willBeMipped sa cp w))
     <= 1)%nat.
Proof.
  intros a params dst tex willBeMipped sa cp w.
  apply onRefTextureProxyForParams_copies.
Qed.

(** X11.  The selection returns null only when the context was abandoned, or
    when the wrap mode needs a copy and the resolve returned null.  On a
    live context, a request whose wrap mode needs no copy is never answered
    with null: either the run returns a proxy, the original or the copy that
    the resolve returned, or an assertion stops it, which happens in a build
    that checks assertions only. *)
Theorem selection_is_null_only_for_abandoned_or_wrap_mode :
  forall (a : GrTextureAdjuster) (params : GrSamplerState)
         (dst : option SkColorSpace) (tex : option (option SkColorSpace))
         (willBeMipped : bool) (sa : SkScalar * SkScalar) (cp : CopyParams) (w : World),
    (forall sel : Selection,
       outcome (onRefTextureProxyForParams a params dst tex willBeMipped sa cp w) =
         Returned sel ->
       selected sel = None ->
       fContext a = None \/
       exists ctx : GrContext,
         fContext a = Some ctx /\
         copyForWrapMode (caps ctx) a params cp sa = true /\
         outcome (refTextureProxyCopy a (analysedCopyParams (caps ctx) a params cp sa)
                    willBeMipped w) = Returned None) /\
    (forall ctx : GrContext,
       fContext a = Some ctx ->
       copyForWrapMode (caps ctx) a params cp sa = false ->
       (SK_DEBUG = true /\
        outcome (onRefTextureProxyForParams a params dst tex willBeMipped sa cp w) =
          AssertionFailed) \/
       exists p : GrTextureProxy,
         outcome (onRefTextureProxyForParams a params dst tex willBeMipped sa cp w) =
           Returned (selectionOf (caps ctx) a params tex cp sa (Some p)) /\
         (p = fOriginal a \/
          outcome (refTextureProxyCopy a (analysedCopyParams (caps ctx) a params cp sa)
                     willBeMipped w) = Returned (Some p))).
Proof.
  intros a params dst tex willBeMipped sa cp w. split.
  - intros sel Hout Hnull.
    destruct (fContext a) as [ctx|] eqn:Hctx; [right|left; reflexivity].
    exists ctx. split; [reflexivity|].
    destruct (passes_or_fails (fitsMaxTextureSize a ctx)) as [Hsize|[Hdebug Hsize]].
    + rewrite (onRefTextureProxyForParams_live a ctx params dst tex willBeMipped sa cp w
                 Hctx Hsize) in Hout.
      unfold copyNeeded, copyForMipsOnly in Hout.
      destruct (copyForWrapMode (caps ctx) a params cp sa) eqn:Hwrap; simpl in Hout.
      * split; [reflexivity|].
        rewrite copyOrFallBack_run in Hout. unfold outcome in *. simpl in Hout.
        destruct (refTextureProxyCopy a (analysedCopyParams (caps ctx) a params cp sa)
                    willBeMipped w) as [[[[p|]|] w1] e1]; simpl in *;
          try discriminate Hout; [|reflexivity].
        injection Hout as <-. simpl in Hnull. discriminate Hnull.
      * exfalso.
        destruct (fst (mipAnalysis (caps ctx) a params cp sa)); simpl in Hout.
        -- rewrite copyOrFallBack_run in Hout. unfold outcome in *. simpl in Hout.
           destruct (refTextureProxyCopy a (analysedCopyParams (caps ctx) a params cp sa)
                       willBeMipped w) as [[[[p|]|] w1] e1]; simpl in *;
             try discriminate Hout; injection Hout as <-; simpl in Hnull;
             discriminate Hnull.
        -- unfold outcome in Hout. simpl in Hout. injection Hout as <-.
           simpl in Hnull. discriminate Hnull.
    + rewrite (onRefTextureProxyForParams_oversize a ctx params dst tex willBeMipped sa
                 cp w Hctx Hdebug Hsize) in Hout.
      unfold outcome in Hout. simpl in Hout. discriminate Hout.
  - intros ctx Hctx Hwrap.
    destruct (passes_or_fails (fitsMaxTextureSize a ctx)) as [Hsize|[Hdebug Hsize]].
    + rewrite (onRefTextureProxyForParams_live a ctx params dst tex willBeMipped sa cp w
                 Hctx Hsize).
      unfold copyNeeded, copyForMipsOnly. rewrite Hwrap. simpl.
      destruct (fst (mipAnalysis (caps ctx) a params cp sa)); simpl.
      * rewrite copyOrFallBack_run.
        pose proof (refTextureProxyCopy_stopped a
                      (analysedCopyParams (caps ctx) a params cp sa) willBeMipped w)
          as Hstop.
        unfold outcome in *. simpl.
        destruct (refTextureProxyCopy a (analysedCopyParams (caps ctx) a params cp sa)
                    willBeMipped w) as [[[[p|]|] w1] e1]; simpl in *.
        -- right. exists p. split; [reflexivity|right; reflexivity].
        -- right. exists (fOriginal a). split; [reflexivity|left; reflexivity].
        -- left. split; [apply Hstop; reflexivity|reflexivity].
      * right. exists (fOriginal a). unfold outcome. simpl.
        split; [reflexivity|left; reflexivity].
    + left. split; [exact Hdebug|].
      rewrite (onRefTextureProxyForParams_oversize a ctx params dst tex willBeMipped sa
                 cp w Hctx Hdebug Hsize).
      reflexivity.
Qed.

(** X12.  The out-parameters of a selection that returns.  [scaleAdjust] is
    changed by the wrap-mode analyser only: it comes back as it was given
    when the sampler does not repeat.  [texColorSpace], when the caller
    passes it, receives the colour space of the adjuster on a live context,
    also when null is selected, and is left alone on an abandoned one. *)
Theorem selection_out_parameters :
  forall (a : GrTextureAdjuster) (params : GrSamplerState)
         (dst : option SkColorSpace) (tex : option (option SkColorSpace))
         (willBeMipped : bool) (sa : SkScalar * SkScalar) (cp : CopyParams) (w : World)
         (sel : Selection),
    outcome (onRefTextureProxyForParams a params dst tex willBeMipped sa cp w) =
      Returned sel ->
    (isRepeated params = false -> outScaleAdjust sel = sa) /\
    (fContext a = None -> outScaleAdjust sel = sa /\ outTexColorSpace sel = tex) /\
    (fContext a <> None -> outTexColorSpace sel = texColorSpaceOut a tex).
Proof.
  intros a params dst tex willBeMipped sa cp w sel Hout.
  destruct (fContext a) as [ctx|] eqn:Hctx.
  - destruct (passes_or_fails (fitsMaxTextureSize a ctx)) as [Hsize|[Hdebug Hsize]].
    + rewrite (onRefTextureProxyForParams_live a ctx params dst tex willBeMipped sa cp w
                 Hctx Hsize) in Hout.
      assert (Hsel : exists res, sel = selectionOf (caps ctx) a params tex cp sa res).
      { destruct (copyNeeded (caps ctx) a params cp sa).
        - unfold outcome at 1 in Hout. simpl in Hout.
          destruct (outcome (copyOrFallBack _ _ _ _ _)) as [res|];
            [|discriminate Hout].
          injection Hout as <-. exists res. reflexivity.
        - unfold outcome in Hout. simpl in Hout. injection Hout as <-.
          exists (Some (fOriginal a)). reflexivity. }
      destruct Hsel as [res ->]. simpl.
      split; [|split].
      * intros Hrep. unfold analysedScaleAdjust, repeatAnalysis. rewrite Hrep.
        reflexivity.
      * intros Hnone. discriminate Hnone.
      * intros _. reflexivity.
    + rewrite (onRefTextureProxyForParams_oversize a ctx params dst tex willBeMipped sa
                 cp w Hctx Hdebug Hsize) in Hout.
      unfold outcome in Hout. simpl in Hout. discriminate Hout.
  - unfold onRefTextureProxyForParams in Hout. rewrite Hctx in Hout.
    unfold outcome, ret in Hout. simpl in Hout. injection Hout as <-. simpl.
    split; [reflexivity|]. split; [split; reflexivity|].
    intros Hne. exfalso. apply Hne. reflexivity.
Qed.

(** X13.  In a build that checks assertions, an original wider or higher
    than the maximal texture size of the device stops the selection at the
    assertion of line 95, before any collaborator is called and with the
    state untouched. *)
Theorem oversize_original_stops_the_selection :
  forall (a : GrTextureAdjuster) (ctx : GrContext) (params : GrSamplerState)
         (dst : option SkColorSpace) (tex : option (option SkColorSpace))
         (willBeMipped : bool) (sa : SkScalar * SkScalar) (cp : CopyParams) (w : World),
    fContext a = Some ctx ->
    SK_DEBUG = true ->
    (maxTextureSize (caps ctx) < width (fOriginal a) \/
     maxTextureSize (caps ctx) < height (fOriginal a)) ->
    onRefTextureProxyForParams a params dst tex willBeMipped sa cp w =
      (AssertionFailed, w, []).
Proof.
  intros a ctx params dst tex willBeMipped sa cp w Hctx Hdebug Hsize.
  apply (onRefTextureProxyForParams_oversize a ctx params dst tex willBeMipped sa cp w
           Hctx Hdebug).
  unfold fitsMaxTextureSize. apply andb_false_iff.
  destruct Hsize as [H|H]; [left|right]; apply Z.leb_gt; exact H.
Qed.

End SelectionFurther.

(** * Further properties of the facade *)

Section FacadeFurther.

Context {C : Collaborators}.

Ltac run_sample :=
  unfold sampleAndAssemble, callDetermineDomainMode, retryTightCopy,
    callCreateFragmentProcessorForDomainAndFilter, callGrColorSpaceXformEffect_Make,
    bind, emit, ret, SkASSERT, originalProxy, outcome, world, events, finalDomain,
    handedMatrix.

(** [createFragmentProcessor] is the selection followed, when a proxy was
    selected, by [sampleAndAssemble]. *)
Lemma createFragmentProcessor_run (a : GrTextureAdjuster) (m0 : SkMatrix)
  (rect : SkRect SkScalar) (fc : FilterConstraint) (lim : bool) (f : option Filter)
  (dst : option SkColorSpace) (dom : SkRect SkScalar) (cp : CopyParams) (w : World) :
  createFragmentProcessor a m0 rect fc lim f dst dom cp w =
    match refTextureProxyForParams a (samplerStateFor f) None None
            (SK_Scalar1, SK_Scalar1) cp w with
    | (Returned sel, w1, e1) =>
        match selected sel with
        | Some p =>
            (outcome (sampleAndAssemble a m0 rect fc lim f dst dom p (outScaleAdjust sel) w1),
             world (sampleAndAssemble a m0 rect fc lim f dst dom p (outScaleAdjust sel) w1),
             e1 ++
             events (sampleAndAssemble a m0 rect fc lim f dst dom p (outScaleAdjust sel) w1))
        | None => (Returned None, w1, e1)
        end
    | (AssertionFailed, w1, e1) => (AssertionFailed, w1, e1)
    end.
Proof.
  unfold createFragmentProcessor, bind.
  destruct (refTextureProxyForParams a (samplerStateFor f) None None
              (SK_Scalar1, SK_Scalar1) cp w) as [[[sel|] w1] e1]; [|reflexivity].
  destruct (selected sel) as [p|].
  - destruct (sampleAndAssemble a m0 rect fc lim f dst dom p (outScaleAdjust sel) w1)
      as [[o w2] e2]. reflexivity.
  - unfold ret. simpl. rewrite app_nil_r. reflexivity.
Qed.

(** What [sampleAndAssemble] does: it leaves the state alone, calls the
    solver with the filter of the request and, for a tight copy, once more
    with bilerp, and then calls the two steps of the assembly once unless an
    assertion stops it. *)
Lemma sampleAndAssemble_run (a : GrTextureAdjuster) (m0 : SkMatrix)
  (rect : SkRect SkScalar) (fc : FilterConstraint) (lim : bool) (f : option Filter)
  (dst : option SkColorSpace) (dom : SkRect SkScalar) (p : GrTextureProxy)
  (sa : SkScalar * SkScalar) (w1 : World) :
  world (sampleAndAssemble a m0 rect fc lim f dst dom p sa w1) = w1 /\
  filter isDetermineDomainMode
    (events (sampleAndAssemble a m0 rect fc lim f dst dom p sa w1)) =
    EvDetermineDomainMode rect fc lim p f ::
    (if DomainMode_eqb kTightCopy_DomainMode (fst (DetermineDomainMode rect fc lim p f dom))
        && negb (SK_DEBUG && negb (isMipMapFilter f))
     then [EvDetermineDomainMode rect fc lim p (Some kBilerp)] else []) /\
  filter isCreateFragmentProcessor
    (events (sampleAndAssemble a m0 rect fc lim f dst dom p sa w1)) =
    (if isReturned (outcome (sampleAndAssemble a m0 rect fc lim f dst dom p sa w1))
     then [EvCreateFragmentProcessorForDomainAndFilter p (handedMatrix a m0 p sa)
             (fst (finalDomain rect fc lim p f dom))
             (snd (finalDomain rect fc lim p f dom)) f]
     else []) /\
  filter isColorSpaceXform
    (events (sampleAndAssemble a m0 rect fc lim f dst dom p sa w1)) =
    (if isReturned (outcome (sampleAndAssemble a m0 rect fc lim f dst dom p sa w1))
     then [EvGrColorSpaceXformEffect_Make] else []) /\
  gpuCopies (events (sampleAndAssemble a m0 rect fc lim f dst dom p sa w1)) = 0%nat /\
  (SK_DEBUG = false ->
   sampleAndAssemble a m0 rect fc lim f dst dom p sa w1 =
     (Returned (GrColorSpaceXformEffect_Make
                  (CreateFragmentProcessorForDomainAndFilter p (handedMatrix a m0 p sa)
                     (fst (finalDomain rect fc lim p f dom))
                     (snd (finalDomain rect fc lim p f dom)) f)
                  (fColorSpace a) (fAlphaType a) dst),
      w1,
      EvDetermineDomainMode rect fc lim p f ::
      (if DomainMode_eqb kTightCopy_DomainMode
            (fst (DetermineDomainMode rect fc lim p f dom))
       then [EvDetermineDomainMode rect fc lim p (Some kBilerp)] else []) ++
      [EvCreateFragmentProcessorForDomainAndFilter p (handedMatrix a m0 p sa)
         (fst (finalDomain rect fc lim p f dom))
         (snd (finalDomain rect fc lim p f dom)) f;
       EvGrColorSpaceXformEffect_Make])).
Proof.
  unfold gpuCopies. run_sample.
  destruct (DetermineDomainMode rect fc lim p f dom) as [m1 d1].
  destruct (DetermineDomainMode rect fc lim p (Some kBilerp) d1) as [m2 d2] eqn:Hsecond.
  destruct (samePointer p (fOriginal a));
    destruct SK_DEBUG eqn:Hdebug; destruct (isMipMapFilter f); destruct m1; simpl;
    rewrite ?Hsecond; simpl;
    try (destruct m2; simpl); try (destruct (domainIsSorted d1); simpl);
    try (destruct (domainIsSorted d2); simpl);
    repeat split; try reflexivity;
    try (intros Hd; try discriminate Hd; reflexivity).
Qed.

Lemma sampleAndAssemble_checked (a : GrTextureAdjuster) (m0 : SkMatrix)
  (rect : SkRect SkScalar) (fc : FilterConstraint) (lim : bool) (f : option Filter)
  (dst : option SkColorSpace) (dom : SkRect SkScalar) (p : GrTextureProxy)
  (sa : SkScalar * SkScalar) (w1 : World) (mode : DomainMode) (d : SkRect SkScalar) :
  SK_DEBUG = true ->
  In (mode, d)
    (assembledDomains (events (sampleAndAssemble a m0 rect fc lim f dst dom p sa w1))) ->
  mode <> kTightCopy_DomainMode.
Proof.
  intros Hdebug. run_sample. rewrite Hdebug.
  destruct (DetermineDomainMode rect fc lim p f dom) as [m1 d1].
  destruct (DetermineDomainMode rect fc lim p (Some kBilerp) d1) as [m2 d2] eqn:Hsecond.
  destruct (isMipMapFilter f); destruct m1; simpl;
    rewrite ?Hsecond; simpl;
    try (destruct m2; simpl); try (destruct (domainIsSorted d1); simpl);
    try (destruct (domainIsSorted d2); simpl);
    intros Hin; repeat (destruct Hin as [Hin|Hin]; [injection Hin as <- <-|]);
    try contradiction; discriminate.
Qed.

Lemma selection_events_hold_no_assembly_call (l : list Event) :
  forallb isSelectionEvent l = true ->
  filter isCreateFragmentProcessor l = [] /\ filter isColorSpaceXform l = [].
Proof.
  induction l as [|e l IH]; simpl; intros H; [split; reflexivity|].
  apply andb_true_iff in H as [He Hl]. destruct (IH Hl) as [H1 H2].
  destruct e; simpl in He; try discriminate He; simpl; split; assumption.
Qed.

(** X14.  Whatever the request and the state, [createFragmentProcessor]
    leaves the state as the selection left it, asks for at most one GPU copy,
    calls the domain solver at most twice and each step of the assembly at
    most once. *)
Theorem facade_bounds_its_calls :
  forall (a : GrTextureAdjuster) (origTextureMatrix : SkMatrix)
         (constraintRect : SkRect SkScalar) (fc : FilterConstraint) (coordsLimited : bool)
         (filterOrNull : option Filter) (dst : option SkColorSpace)
         (domain : SkRect SkScalar) (cp : CopyParams) (w : World),
    world (createFragmentProcessor a origTextureMatrix constraintRect fc coordsLimited
             filterOrNull dst domain cp w) =
      world (refTextureProxyForParams a (samplerStateFor filterOrNull) None None
               (SK_Scalar1, SK_Scalar1) cp w) /\
    (gpuCopies (events (createFragmentProcessor a origTextureMatrix constraintRect fc
                          coordsLimited filterOrNull dst domain cp w)) <= 1)%nat /\
    (length (filter isDetermineDomainMode
               (events (createFragmentProcessor a origTextureMatrix constraintRect fc
                          coordsLimited filterOrNull dst domain cp w))) <= 2)%nat /\
    (length (filter isCreateFragmentProcessor
               (events (createFragmentProcessor a origTextureMatrix constraintRect fc
                          coordsLimited filterOrNull dst domain cp w))) <= 1)%nat /\
    (length (filter isColorSpaceXform
               (events (createFragmentProcessor a origTextureMatrix constraintRect fc
                          coordsLimited filterOrNull dst domain cp w))) <= 1)%nat.
Proof.
  intros a m0 rect fc lim f dst dom cp w.
  rewrite createFragmentProcessor_run.
  pose proof (refTextureProxyForParams_events a (samplerStateFor f) None None
                (SK_Scalar1, SK_Scalar1) cp w) as Hev.
  pose proof (onRefTextureProxyForParams_copies a (samplerStateFor f) None None
                (willBeMippedFor (fContext a) (samplerStateFor f))
                (SK_Scalar1, SK_Scalar1) cp w) as Hcopies.
  fold (refTextureProxyForParams a (samplerStateFor f) None None
          (SK_Scalar1, SK_Scalar1) cp w) in Hcopies.
  destruct (refTextureProxyForParams a (samplerStateFor f) None None
              (SK_Scalar1, SK_Scalar1) cp w) as [[o w1] e1].
  unfold events in Hev, Hcopies. simpl in Hev, Hcopies.
  destruct (selection_events_hold_no_solver_call _ Hev) as (_ & _ & _ & Hsolver & _).
  destruct (selection_events_hold_no_assembly_call _ Hev) as [Hcreate Hxform].
  assert (Hnone : world (o, w1, e1) = w1 /\
                  (gpuCopies (events (o, w1, e1)) <= 1)%nat /\
                  (length (filter isDetermineDomainMode (events (o, w1, e1))) <= 2)%nat /\
                  (length (filter isCreateFragmentProcessor (events (o, w1, e1))) <= 1)%nat /\
                  (length (filter isColorSpaceXform (events (o, w1, e1))) <= 1)%nat).
  { unfold world, events. simpl. rewrite Hsolver, Hcreate, Hxform. simpl.
    repeat split; try lia; exact Hcopies. }
  destruct o as [sel|]; [|exact Hnone].
  destruct (selected sel) as [p|]; [|exact Hnone].
  destruct (sampleAndAssemble_run a m0 rect fc lim f dst dom p (outScaleAdjust sel) w1)
    as (Hworld & Hs & Hc & Hx & Hg & _).
  set (r2 := sampleAndAssemble a m0 rect fc lim f dst dom p (outScaleAdjust sel) w1) in *.
  clearbody r2. clear Hnone.
  unfold world, events, outcome, gpuCopies in *. cbn [fst snd] in *.
  rewrite !filter_app, !length_app.
  rewrite Hsolver, Hcreate, Hxform, Hs, Hc, Hx, Hg. simpl.
  split; [exact Hworld|].
  repeat split; try lia;
    repeat match goal with
           | |- context [if ?b then _ else _] => destruct b
           end; simpl; lia.
Qed.

(** X15.  What the assembly is given when the selection returned a proxy:
    that proxy, the texture matrix of lines 143 to 145, the mode and domain
    the solver answered, those of the retry with bilerp when the first
    answer asked for a tight copy, and the filter of the request, which the
    retry does not change.  It is given once if no assertion stops the run
    and never otherwise. *)
Theorem assembly_receives_request_filter_and_final_domain :
  forall (a : GrTextureAdjuster) (origTextureMatrix : SkMatrix)
         (constraintRect : SkRect SkScalar) (fc : FilterConstraint) (coordsLimited : bool)
         (filterOrNull : option Filter) (dst : option SkColorSpace)
         (domain : SkRect SkScalar) (cp : CopyParams) (w w1 : World)
         (sel : Selection) (p : GrTextureProxy) (e1 : list Event),
    refTextureProxyForParams a (samplerStateFor filterOrNull) None None
      (SK_Scalar1, SK_Scalar1) cp w = (Returned sel, w1, e1) ->
    selected sel = Some p ->
    filter isCreateFragmentProcessor
      (events (createFragmentProcessor a origTextureMatrix constraintRect fc coordsLimited
                 filterOrNull dst domain cp w)) =
      (if isReturned
            (outcome (createFragmentProcessor a origTextureMatrix constraintRect fc
                        coordsLimited filterOrNull dst domain cp w))
       then [EvCreateFragmentProcessorForDomainAndFilter p
               (handedMatrix a origTextureMatrix p (outScaleAdjust sel))
               (fst (finalDomain constraintRect fc coordsLimited p filterOrNull domain))
               (snd (finalDomain constraintRect fc coordsLimited p filterOrNull domain))
               filterOrNull]
       else []).
Proof.
  intros a m0 rect fc lim f dst dom cp w w1 sel p e1 Hsel Hp.
  pose proof (refTextureProxyForParams_events a (samplerStateFor f) None None
                (SK_Scalar1, SK_Scalar1) cp w) as Hev.
  rewrite createFragmentProcessor_run. rewrite Hsel in *. rewrite Hp.
  unfold events in Hev. simpl in Hev.
  destruct (selection_events_hold_no_assembly_call _ Hev) as [Hcreate _].
  destruct (sampleAndAssemble_run a m0 rect fc lim f dst dom p (outScaleAdjust sel) w1)
    as (_ & _ & Hc & _).
  unfold events at 1. unfold outcome at 1. simpl.
  rewrite filter_app, Hcreate. simpl. exact Hc.
Qed.

(** X16.  The calls of the domain solver when the selection returned a
    proxy: one call for the selected proxy with the constraint and the filter
    of the request; and, when its answer asks for a tight copy and the
    assertion of line 156 does not stop the run, one more call that differs
    in the filter only, which is bilerp. *)
Theorem solver_is_called_for_the_selected_proxy :
  forall (a : GrTextureAdjuster) (origTextureMatrix : SkMatrix)
         (constraintRect : SkRect SkScalar) (fc : FilterConstraint) (coordsLimited : bool)
         (filterOrNull : option Filter) (dst : option SkColorSpace)
         (domain : SkRect SkScalar) (cp : CopyParams) (w w1 : World)
         (sel : Selection) (p : GrTextureProxy) (e1 : list Event),
    refTextureProxyForParams a (samplerStateFor filterOrNull) None None
      (SK_Scalar1, SK_Scalar1) cp w = (Returned sel, w1, e1) ->
    selected sel = Some p ->
    filter isDetermineDomainMode
      (events (createFragmentProcessor a origTextureMatrix constraintRect fc coordsLimited
                 filterOrNull dst domain cp w)) =
      EvDetermineDomainMode constraintRect fc coordsLimited p filterOrNull ::
      (if DomainMode_eqb kTightCopy_DomainMode
            (fst (DetermineDomainMode constraintRect fc coordsLimited p filterOrNull domain))
          && negb (SK_DEBUG && negb (isMipMapFilter filterOrNull))
       then [EvDetermineDomainMode constraintRect fc coordsLimited p (Some kBilerp)]
       else []).
Proof.
  intros a m0 rect fc lim f dst dom cp w w1 sel p e1 Hsel Hp.
  pose proof (refTextureProxyForParams_events a (samplerStateFor f) None None
                (SK_Scalar1, SK_Scalar1) cp w) as Hev.
  rewrite createFragmentProcessor_run. rewrite Hsel in *. rewrite Hp.
  unfold events in Hev. simpl in Hev.
  destruct (selection_events_hold_no_solver_call _ Hev) as (_ & _ & _ & Hsolver & _).
  destruct (sampleAndAssemble_run a m0 rect fc lim f dst dom p (outScaleAdjust sel) w1)
    as (_ & Hs & _).
  unfold events at 1. simpl.
  rewrite filter_app, Hsolver. simpl. exact Hs.
Qed.

(** X17.  In a build that checks assertions, whatever the request and the
    state, the assembly is never given the mode [kTightCopy], and it is given
    a domain that is not sorted only together with the mode [kNoDomain]. *)
Theorem checked_facade_hands_over_sound_domains :
  forall (a : GrTextureAdjuster) (origTextureMatrix : SkMatrix)
         (constraintRect : SkRect SkScalar) (fc : FilterConstraint) (coordsLimited : bool)
         (filterOrNull : option Filter) (dst : option SkColorSpace)
         (domain : SkRect SkScalar) (cp : CopyParams) (w : World)
         (mode : DomainMode) (d : SkRect SkScalar),
    SK_DEBUG = true ->
    In (mode, d)
      (assembledDomains
         (events (createFragmentProcessor a origTextureMatrix constraintRect fc
                    coordsLimited filterOrNull dst domain cp w))) ->
    mode <> kTightCopy_DomainMode /\
    (mode = kNoDomain_DomainMode \/ domainIsSorted d = true).
Proof.
  intros a m0 rect fc lim f dst dom cp w mode d Hdebug.
  rewrite createFragmentProcessor_run.
  pose proof (refTextureProxyForParams_events a (samplerStateFor f) None None
                (SK_Scalar1, SK_Scalar1) cp w) as Hev.
  destruct (refTextureProxyForParams a (samplerStateFor f) None None
              (SK_Scalar1, SK_Scalar1) cp w) as [[o w1] e1].
  unfold events in Hev. simpl in Hev.
  destruct (selection_events_hold_no_solver_call _ Hev) as (_ & _ & _ & _ & _ & Hnone).
  assert (Hempty : In (mode, d) (assembledDomains (events (o, w1, e1))) -> False).
  { unfold events. simpl. rewrite Hnone. intros []. }
  destruct o as [sel|]; [|intros Hin; destruct (Hempty Hin)].
  destruct (selected sel) as [p|]; [|intros Hin; destruct (Hempty Hin)].
  unfold events at 1. simpl. unfold assembledDomains in *.
  rewrite flat_map_app, Hnone. simpl. intros Hin. split.
  - exact (sampleAndAssemble_checked a m0 rect fc lim f dst dom p (outScaleAdjust sel)
             w1 mode d Hdebug Hin).
  - exact (sampleAndAssemble_checks_domain a m0 rect fc lim f dst dom p
             (outScaleAdjust sel) w1 mode d Hdebug Hin).
Qed.

(** X18.  In a build without assertions, a request whose selection returned
    a proxy always returns: the result is the colour-space effect made of
    the processor created for the selected proxy, the texture matrix of
    lines 143 to 145, the final mode and domain and the filter of the
    request; the state is that of the selection, and after the calls of the
    selection come the one or two calls of the solver and the two steps of
    the assembly. *)
Theorem unchecked_facade_composes_selection_solver_and_assembly :
  forall (a : GrTextureAdjuster) (origTextureMatrix : SkMatrix)
         (constraintRect : SkRect SkScalar) (fc : FilterConstraint) (coordsLimited : bool)
         (filterOrNull : option Filter) (dst : option SkColorSpace)
         (domain : SkRect SkScalar) (cp : CopyParams) (w w1 : World)
         (sel : Selection) (p : GrTextureProxy) (e1 : list Event),
    SK_DEBUG = false ->
    refTextureProxyForParams a (samplerStateFor filterOrNull) None None
      (SK_Scalar1, SK_Scalar1) cp w = (Returned sel, w1, e1) ->
    selected sel = Some p ->
    createFragmentProcessor a origTextureMatrix constraintRect fc coordsLimited
      filterOrNull dst domain cp w =
      (Returned
         (GrColorSpaceXformEffect_Make
            (CreateFragmentProcessorForDomainAndFilter p
               (handedMatrix a origTextureMatrix p (outScaleAdjust sel))
               (fst (finalDomain constraintRect fc coordsLimited p filterOrNull domain))
               (snd (finalDomain constraintRect fc coordsLimited p filterOrNull domain))
               filterOrNull)
            (fColorSpace a) (fAlphaType a) dst),
       w1,
       e1 ++
       EvDetermineDomainMode constraintRect fc coordsLimited p filterOrNull ::
       (if DomainMode_eqb kTightCopy_DomainMode
             (fst (DetermineDomainMode constraintRect fc coordsLimited p filterOrNull
                     domain))
        then [EvDetermineDomainMode constraintRect fc coordsLimited p (Some kBilerp)]
        else []) ++
       [EvCreateFragmentProcessorForDomainAndFilter p
          (handedMatrix a origTextureMatrix p (outScaleAdjust sel))
          (fst (finalDomain constraintRect fc coordsLimited p filterOrNull domain))
          (snd (finalDomain constraintRect fc coordsLimited p filterOrNull domain))
          filterOrNull;
        EvGrColorSpaceXformEffect_Make]).
Proof.
  intros a m0 rect fc lim f dst dom cp w w1 sel p e1 Hdebug Hsel Hp.
  rewrite createFragmentProcessor_run. rewrite Hsel, Hp.
  destruct (sampleAndAssemble_run a m0 rect fc lim f dst dom p (outScaleAdjust sel) w1)
    as (_ & _ & _ & _ & _ & Hrun).
  rewrite (Hrun Hdebug). reflexivity.
Qed.

End FacadeFurther.

(** * The further properties on the sample device *)

(** X2 on the sample device: the cache is empty and the engine fails. *)
Lemma resolve_returns_hit_or_engine_answer_witness :
  outcome (refTextureProxyCopy debugAdjuster sampleCopyParams true (sampleWorld [] [None])) =
    Returned None /\
  keyed (world (refTextureProxyCopy debugAdjuster sampleCopyParams true
                  (sampleWorld [] [None]))) = keyed (sampleWorld [] [None]).
Proof.
  split; [reflexivity|].
  destruct (resolve_returns_hit_or_engine_answer (C := sampleDevice true) debugAdjuster
              sampleCopyParams true (sampleWorld [] [None]) None eq_refl) as [_ Hnull].
  destruct (Hnull eq_refl) as (_ & Hkeyed & _). exact Hkeyed.
Defined.

Lemma upgradeWorld_has_unique_keys : uniqueKeys (keyed upgradeWorld).
Proof.
  intros k. unfold entriesUnder. simpl.
  destruct (GrUniqueKey_eqb k _); simpl; lia.
Qed.

(** X3 on the sample device: a plain copy is replaced by a mipped one. *)
Lemma resolve_keeps_keys_unique_witness :
  uniqueKeys (keyed upgradeWorld) /\
  uniqueKeys (keyed (world (refTextureProxyCopy debugAdjuster sampleCopyParams true
                              upgradeWorld))).
Proof.
  split; [exact upgradeWorld_has_unique_keys|].
  destruct (resolve_keeps_keys_unique (C := sampleDevice true) debugAdjuster
              sampleCopyParams true upgradeWorld) as [Hunique _].
  exact (Hunique upgradeWorld_has_unique_keys).
Defined.

(** X4 on the sample device: the copy just made is found under the key. *)
Lemma resolved_proxy_is_found_under_its_key_witness :
  isValid (makeCopyKey debugAdjuster sampleCopyParams) = true /\
  outcome (refTextureProxyCopy debugAdjuster sampleCopyParams true mipRequestWorld) =
    Returned (Some sampleMippedCopy) /\
  findByKey (makeCopyKey debugAdjuster sampleCopyParams)
    (keyed (world (refTextureProxyCopy debugAdjuster sampleCopyParams true
                     mipRequestWorld))) = Some sampleMippedCopy.
Proof.
  split; [reflexivity|]. split; [reflexivity|].
  apply (resolved_proxy_is_found_under_its_key (C := sampleDevice true) debugAdjuster
           sampleCopyParams true mipRequestWorld sampleMippedCopy); reflexivity.
Defined.

(** X5 on the sample device: the key of the replaced copy still finds an
    entry. *)
Lemma resolve_never_drops_a_key_witness :
  findByKey (sampleKey true) (keyed upgradeWorld) = Some samplePlainCopy /\
  exists p : GrTextureProxy,
    findByKey (sampleKey true)
      (keyed (world (refTextureProxyCopy debugAdjuster sampleCopyParams true
                       upgradeWorld))) = Some p.
Proof.
  split; [reflexivity|].
  apply (resolve_never_drops_a_key (C := sampleDevice true) debugAdjuster
           sampleCopyParams true upgradeWorld (sampleKey true) samplePlainCopy).
  reflexivity.
Defined.

(** X7 on the sample device: the plain copy is detached from the key. *)
Lemma resolve_replaces_only_unmipped_copies_witness :
  In (EvRemoveUniqueKeyFromProxy (sampleKey true) samplePlainCopy)
    (events (refTextureProxyCopy debugAdjuster sampleCopyParams true upgradeWorld)) /\
  mipMapped samplePlainCopy = kNo /\
  findByKey (makeCopyKey debugAdjuster sampleCopyParams) (keyed upgradeWorld) =
    Some samplePlainCopy.
Proof.
  assert (Hin : In (EvRemoveUniqueKeyFromProxy (sampleKey true) samplePlainCopy)
                  (events (refTextureProxyCopy debugAdjuster sampleCopyParams true
                             upgradeWorld))).
  { right. right. left. reflexivity. }
  split; [exact Hin|].
  destruct (resolve_replaces_only_unmipped_copies (C := sampleDevice true) debugAdjuster
              sampleCopyParams true upgradeWorld (sampleKey true) samplePlainCopy Hin)
    as (_ & Hplain & _ & Hfind & _).
  split; assumption.
Defined.

(** X8 on the sample device: the second adjuster, on the same context,
    finds the copy of the first. *)
Lemma adjusters_of_one_content_share_copies_witness :
  fUniqueID debugAdjuster = fUniqueID otherAdjuster /\
  fContext debugAdjuster = Some sampleContext /\
  fContext otherAdjuster = Some sampleContext /\
  outcome (refTextureProxyCopy debugAdjuster sampleCopyParams true mipRequestWorld) =
    Returned (Some sampleMippedCopy) /\
  refTextureProxyCopy otherAdjuster sampleCopyParams true
    (world (refTextureProxyCopy debugAdjuster sampleCopyParams true mipRequestWorld)) =
    (Returned (Some sampleMippedCopy),
     world (refTextureProxyCopy debugAdjuster sampleCopyParams true mipRequestWorld),
     [EvFindOrCreateProxyByUniqueKey (makeCopyKey otherAdjuster sampleCopyParams)
        (origin (fOriginal otherAdjuster))]).
Proof.
  split; [reflexivity|]. split; [reflexivity|]. split; [reflexivity|].
  split; [reflexivity|].
  destruct (adjusters_of_one_content_share_copies (C := sampleDevice true) debugAdjuster
              otherAdjuster sampleCopyParams true mipRequestWorld sampleMippedCopy
              eq_refl eq_refl eq_refl) as [_ Hhit].
  exact (Hhit sampleContext eq_refl eq_refl eq_refl eq_refl eq_refl).
Defined.

(** X9 on the sample device: a mip-map request on a texture without mips. *)
Lemma selection_is_analysis_then_one_resolve_witness :
  copyNeeded sampleCaps debugAdjuster mipSampler sampleCopyParams noScale = true /\
  world (onRefTextureProxyForParams debugAdjuster mipSampler None None true noScale
           sampleCopyParams mipRequestWorld) =
    world (refTextureProxyCopy debugAdjuster
             (analysedCopyParams sampleCaps debugAdjuster mipSampler sampleCopyParams
                noScale) true mipRequestWorld).
Proof.
  split; [reflexivity|].
  destruct (selection_is_analysis_then_one_resolve (C := sampleDevice true) debugAdjuster
              sampleContext mipSampler None None true noScale sampleCopyParams
              mipRequestWorld eq_refl (fun _ => eq_refl) eq_refl) as [Hworld _].
  exact Hworld.
Defined.

(** X11 on the sample device: a repeating sampler and a failing engine give
    null; a mip-map request and a failing engine give the original. *)
Lemma selection_is_null_only_for_abandoned_or_wrap_mode_witness :
  outcome (onRefTextureProxyForParams debugAdjuster repeatSampler None None false noScale
             sampleCopyParams (sampleWorld [] [None])) =
    Returned (sampleSelection true None (100 # 128, 100 # 128)%Q) /\
  (fContext debugAdjuster = None \/
   exists ctx : GrContext,
     fContext debugAdjuster = Some ctx /\
     copyForWrapMode (caps ctx) debugAdjuster repeatSampler sampleCopyParams noScale =
       true /\
     outcome (refTextureProxyCopy debugAdjuster
                (analysedCopyParams (caps ctx) debugAdjuster repeatSampler
                   sampleCopyParams noScale) false (sampleWorld [] [None])) =
       Returned None) /\
  copyForWrapMode sampleCaps debugAdjuster mipSampler sampleCopyParams noScale = false /\
  ((@SK_DEBUG (sampleDevice true) = true /\
    outcome (onRefTextureProxyForParams debugAdjuster mipSampler None None true noScale
               sampleCopyParams (sampleWorld [] [None])) = AssertionFailed) \/
   exists p : GrTextureProxy,
     outcome (onRefTextureProxyForParams debugAdjuster mipSampler None None true noScale
                sampleCopyParams (sampleWorld [] [None])) =
       Returned (selectionOf sampleCaps debugAdjuster mipSampler None sampleCopyParams
                   noScale (Some p)) /\
     (p = fOriginal debugAdjuster \/
      outcome (refTextureProxyCopy debugAdjuster
                 (analysedCopyParams sampleCaps debugAdjuster mipSampler sampleCopyParams
                    noScale) true (sampleWorld [] [None])) = Returned (Some p))).
Proof.
  split; [reflexivity|]. split; [|split; [reflexivity|]].
  - destruct (selection_is_null_only_for_abandoned_or_wrap_mode (C := sampleDevice true)
                debugAdjuster repeatSampler None None false noScale sampleCopyParams
                (sampleWorld [] [None])) as [Hnull _].
    apply (Hnull (sampleSelection true None (100 # 128, 100 # 128)%Q)); reflexivity.
  - destruct (selection_is_null_only_for_abandoned_or_wrap_mode (C := sampleDevice true)
                debugAdjuster mipSampler None None true noScale sampleCopyParams
                (sampleWorld [] [None])) as [_ Hserved].
    apply (Hserved sampleContext); reflexivity.
Defined.

(** X12 on the sample device: a clamping sampler leaves the scale alone. *)
Lemma selection_out_parameters_witness :
  outcome (onRefTextureProxyForParams debugAdjuster mipSampler None None true noScale
             sampleCopyParams mipRequestWorld) =
    Returned (sampleSelection true (Some sampleMippedCopy) noScale) /\
  isRepeated mipSampler = false /\
  outScaleAdjust (sampleSelection true (Some sampleMippedCopy) noScale) = noScale.
Proof.
  split; [reflexivity|]. split; [reflexivity|].
  destruct (selection_out_parameters (C := sampleDevice true) debugAdjuster mipSampler
              None None true noScale sampleCopyParams mipRequestWorld
              (sampleSelection true (Some sampleMippedCopy) noScale) eq_refl)
    as [Hscale _].
  exact (Hscale eq_refl).
Defined.

(** X13 on the sample device: an original of 5000 texels on a device whose
    textures have at most 4096. *)
Lemma oversize_original_stops_the_selection_witness :
  maxTextureSize (caps sampleContext) < width (fOriginal hugeAdjuster) /\
  onRefTextureProxyForParams hugeAdjuster mipSampler None None true noScale
    sampleCopyParams mipRequestWorld = (AssertionFailed, mipRequestWorld, []).
Proof.
  split; [reflexivity|].
  apply (oversize_original_stops_the_selection (C := sampleDevice true) hugeAdjuster
           sampleContext mipSampler None None true noScale sampleCopyParams
           mipRequestWorld eq_refl eq_refl).
  left. reflexivity.
Defined.

(** X15 on the sample device: a mip-map request under a strict constraint;
    the domain comes from the retry with bilerp and the filter is still the
    mip-map filter. *)
Lemma assembly_receives_request_filter_and_final_domain_witness :
  refTextureProxyForParams debugAdjuster (samplerStateFor (Some kMipMap)) None None noScale
    sampleCopyParams mipRequestWorld =
    (Returned (sampleSelection true (Some sampleMippedCopy) noScale), mipRequestSelected,
     mipRequestEvents) /\
  filter isCreateFragmentProcessor
    (events (createFragmentProcessor debugAdjuster noScale edgeRect kYes_FilterConstraint
               false (Some kMipMap) None garbageRect sampleCopyParams mipRequestWorld)) =
    [@EvCreateFragmentProcessorForDomainAndFilter (sampleDevice true) sampleMippedCopy
       (@postScale (sampleDevice true) 1%Q 1%Q noScale) kDomain_DomainMode
       (insetRect (1 # 2) edgeRect) (Some kMipMap)].
Proof.
  split; [reflexivity|].
  rewrite (assembly_receives_request_filter_and_final_domain (C := sampleDevice true)
             debugAdjuster noScale edgeRect kYes_FilterConstraint false (Some kMipMap)
             None garbageRect sampleCopyParams mipRequestWorld mipRequestSelected
             (sampleSelection true (Some sampleMippedCopy) noScale) sampleMippedCopy
             mipRequestEvents eq_refl eq_refl).
  reflexivity.
Defined.

(** X16 on the sample device: the same request; the solver is called twice. *)
Lemma solver_is_called_for_the_selected_proxy_witness :
  refTextureProxyForParams debugAdjuster (samplerStateFor (Some kMipMap)) None None noScale
    sampleCopyParams mipRequestWorld =
    (Returned (sampleSelection true (Some sampleMippedCopy) noScale), mipRequestSelected,
     mipRequestEvents) /\
  filter isDetermineDomainMode
    (events (createFragmentProcessor debugAdjuster noScale edgeRect kYes_FilterConstraint
               false (Some kMipMap) None garbageRect sampleCopyParams mipRequestWorld)) =
    [@EvDetermineDomainMode (sampleDevice true) edgeRect kYes_FilterConstraint false
       sampleMippedCopy (Some kMipMap);
     @EvDetermineDomainMode (sampleDevice true) edgeRect kYes_FilterConstraint false
       sampleMippedCopy (Some kBilerp)].
Proof.
  split; [reflexivity|].
  rewrite (solver_is_called_for_the_selected_proxy (C := sampleDevice true)
             debugAdjuster noScale edgeRect kYes_FilterConstraint false (Some kMipMap)
             None garbageRect sampleCopyParams mipRequestWorld mipRequestSelected
             (sampleSelection true (Some sampleMippedCopy) noScale) sampleMippedCopy
             mipRequestEvents eq_refl eq_refl).
  reflexivity.
Defined.

(** X17 on the sample device: the same request; the domain handed over is
    sorted. *)
Lemma checked_facade_hands_over_sound_domains_witness :
  In (kDomain_DomainMode, insetRect (1 # 2) edgeRect)
    (assembledDomains
       (events (createFragmentProcessor debugAdjuster noScale edgeRect
                  kYes_FilterConstraint false (Some kMipMap) None garbageRect
                  sampleCopyParams mipRequestWorld))) /\
  @domainIsSorted (sampleDevice true) (insetRect (1 # 2) edgeRect) = true.
Proof.
  assert (Hin : In (kDomain_DomainMode, insetRect (1 # 2) edgeRect)
                  (assembledDomains
                     (events (createFragmentProcessor debugAdjuster noScale edgeRect
                                kYes_FilterConstraint false (Some kMipMap) None
                                garbageRect sampleCopyParams mipRequestWorld)))).
  { left. reflexivity. }
  split; [exact Hin|].
  destruct (checked_facade_hands_over_sound_domains (C := sampleDevice true)
              debugAdjuster noScale edgeRect kYes_FilterConstraint false (Some kMipMap)
              None garbageRect sampleCopyParams mipRequestWorld kDomain_DomainMode
              (insetRect (1 # 2) edgeRect) eq_refl Hin) as [_ [Hno|Hsorted]];
    [discriminate Hno|exact Hsorted].
Defined.

(** X18 on the sample device without assertions: a bilerp request under a
    strict constraint inside the texture; the original is selected. *)
Lemma unchecked_facade_composes_selection_solver_and_assembly_witness :
  refTextureProxyForParams releaseAdjuster (samplerStateFor (Some kBilerp)) None None
    noScale sampleCopyParams (sampleWorld [] []) =
    (Returned (sampleSelection false (Some sampleOriginal) noScale), sampleWorld [] [],
     [@EvIsACopyNeededForMips (sampleDevice false) sampleOriginal kBilerp]) /\
  outcome (createFragmentProcessor releaseAdjuster noScale innerRect kYes_FilterConstraint
             false (Some kBilerp) None garbageRect sampleCopyParams (sampleWorld [] [])) =
    Returned (Some {| spProxy := sampleOriginal; spMatrix := noScale;
                      spMode := kDomain_DomainMode;
                      spDomain := insetRect (1 # 2) innerRect;
                      spFilter := Some kBilerp |}).
Proof.
  split; [reflexivity|].
  rewrite (unchecked_facade_composes_selection_solver_and_assembly
             (C := sampleDevice false) releaseAdjuster noScale innerRect
             kYes_FilterConstraint false (Some kBilerp) None garbageRect sampleCopyParams
             (sampleWorld [] []) (sampleWorld [] [])
             (sampleSelection false (Some sampleOriginal) noScale) sampleOriginal
             [@EvIsACopyNeededForMips (sampleDevice false) sampleOriginal kBilerp]
             eq_refl eq_refl eq_refl).
  reflexivity.
Defined.
